(** * zerver/lib/digest.py: the digest email, embedded and verified

    The module gathers four kinds of traffic for a user (missed private
    messages, new streams, new users, hot stream conversations), renders a
    digest and sends it when there is enough to say.

    The embedding follows the source function by function.  The Django
    store is a record of tables; a [QuerySet] is a lazy query, evaluated
    against the store each time the code iterates, slices or measures it.
    Code that reads the store or calls a collaborator lives in a small
    state-and-exception monad over a [World] (the store and the log of
    collaborator calls).  Dictionaries are [gmap]s, Python sets are
    [gset]s, and Python integers are [Z]. *)

From stdpp Require Import base decidable option list sorting gmap strings.
From Stdlib Require Import ZArith Lia.

Local Open Scope Z_scope.
Set Warnings "-clear-no-such-hyp".

(** ** Python values the code tests for truth *)

(** [if x:] asks an object for its truth value: a list is true when it is
    not empty, [None] is false, an integer is true when it is not zero. *)
Class Truthy (A : Type) := truthy : A → bool.

#[export] Instance list_truthy {A} : Truthy (list A) :=
  λ l, match l with [] => false | _ :: _ => true end.
#[export] Instance option_truthy {A} `{Truthy A} : Truthy (option A) :=
  λ o, match o with None => false | Some x => truthy x end.
#[export] Instance Z_truthy : Truthy Z := λ n, negb (n =? 0).
#[export] Instance bool_truthy : Truthy bool := λ b, b.

(** ** zerver.models: the fields the digest reads *)

Module Models.

Record UserProfile := {
  up_id : Z;
  up_realm : Z;
  up_full_name : string;
  up_email : string;
  up_date_joined : Z;
  up_is_bot : bool }.

Record Stream := {
  stream_name : string;
  stream_realm : Z;
  stream_date_created : Z }.

Record Recipient := {
  recipient_id : Z;
  recipient_type : Z;
  recipient_type_id : Z }.

Record Message := {
  message_id : Z;
  message_sender : UserProfile;
  message_recipient : Recipient;
  message_subject : string;
  message_pub_date : Z;
  message_content : string }.

Record UserMessage := {
  um_user_profile : UserProfile;
  um_message : Message }.

Record Subscription := {
  sub_user_profile : UserProfile;
  sub_recipient : Recipient;
  sub_active : bool;
  sub_in_home_view : bool }.

(** The tables behind [UserProfile.objects], [Stream.objects],
    [UserMessage.objects] and [Subscription.objects], in store order. *)
Record Store := {
  UserProfile_objects : list UserProfile;
  Stream_objects : list Stream;
  UserMessage_objects : list UserMessage;
  Subscription_objects : list Subscription }.

(** A lazy query: nothing is read until it is evaluated. *)
Definition QuerySet (A : Type) : Type := Store → list A.

(** [qs.filter(...)] *)
Definition qs_filter {A} (P : A → Prop) `{∀ x, Decision (P x)}
    (qs : QuerySet A) : QuerySet A :=
  λ st, filter P (qs st).

(** [qs[:n]] *)
Definition qs_limit {A} (n : nat) (qs : QuerySet A) : QuerySet A :=
  λ st, take n (qs st).

End Models.
Export Models.

(** ** Exceptions *)

Inductive Exn :=
  | DoesNotExist
  | MultipleObjectsReturned
  | ValueError
  | TypeError
  | OverflowError
  | CollaboratorError (what : string).

Inductive Result (A : Type) :=
  | Ok (a : A)
  | Raise (e : Exn).
Arguments Ok {A} a.
Arguments Raise {A} e.

(** ** enough_traffic (lines 100-108) *)

Definition enough_traffic {A B C D} `{Truthy A, Truthy B, Truthy C, Truthy D}
    (unread_pms : A) (hot_conversations : B) (new_streams : C) (new_users : D)
    : bool :=
  if truthy unread_pms || truthy hot_conversations then true
  else if truthy new_streams && truthy new_users then true
  else false.

(** ** Lists and dictionaries as Python has them *)

(** A stable insertion sort: [before y x] says that [y], met later in the
    list, must still come in front of [x]. *)
Fixpoint insert_stable {A} (before : A → A → bool) (x : A) (l : list A)
    : list A :=
  match l with
  | [] => [x]
  | y :: l' => if before y x then y :: insert_stable before x l' else x :: l
  end.

Definition stable_sort {A} (before : A → A → bool) (l : list A) : list A :=
  foldr (insert_stable before) [] l.

(** [l.sort(key=f, reverse=True)]: Python's sort is stable, and with
    [reverse=True] entries of equal key keep their original order. *)
Definition sort_reverse {A} (f : A → Z) (l : list A) : list A :=
  stable_sort (λ y x, f x <? f y) l.

(** [qs.order_by(f)], ascending; rows of equal key stay in store order. *)
Definition qs_order_by {A} (f : A → Z) (qs : QuerySet A) : QuerySet A :=
  λ st, stable_sort (λ y x, f y <? f x) (qs st).

(** [len(x)] as a Python integer. *)
Definition len {A} (l : list A) : Z := Z.of_nat (length l).

(** A conversation is a stream (the recipient's [type_id]) and a subject. *)
Abbreviation key := (Z * string)%type.

(** A Python float: a finite one is [mantissa * 2 ^ exponent], exactly;
    the others are NaN and the two infinities. *)
Inductive PyFloatValue :=
  | Finite (mantissa exponent : Z)
  | NaN
  | Infinity (negative : bool).

(** The value handed over as [cutoff]: epoch seconds, as an integer, a
    float or a string; [None] can arrive as well. *)
Inductive PyValue :=
  | PyInt (n : Z)
  | PyFloat (x : PyFloatValue)
  | PyStr (s : string)
  | PyNone.

(** [int] of a finite float drops the fraction, towards zero. *)
Definition float_truncate (mantissa exponent : Z) : Z :=
  if 0 <=? exponent then mantissa * 2 ^ exponent
  else mantissa ÷ 2 ^ (- exponent).


(** What the code takes from the Python 2 runtime.  [d.items()] lists the
    entries of a dictionary in an order of the runtime's choosing;
    [int_of_string] reads an integer literal, or fails; and
    [utcfromtimestamp] turns epoch seconds into a [datetime], or fails
    with the exception it raises when the instant is out of range.
    Instants are integers on the scale of the store's timestamps. *)
Class PythonRuntime := {
  dict_items : ∀ V, gmap key V → list (key * V);
  dict_items_perm : ∀ V (m : gmap key V), dict_items V m ≡ₚ map_to_list m;
  int_of_string : string → option Z;
  utcfromtimestamp : Z → Result Z }.
Arguments dict_items {_ _} m.

(** [int(x)] *)
Definition py_int {Py : PythonRuntime} (x : PyValue) : Result Z :=
  match x with
  | PyInt n => Ok n
  | PyFloat (Finite mantissa exponent) =>
      Ok (float_truncate mantissa exponent)
  | PyFloat NaN => Raise ValueError
  | PyFloat (Infinity _) => Raise OverflowError
  | PyStr s =>
      match int_of_string s with Some n => Ok n | None => Raise ValueError end
  | PyNone => Raise TypeError
  end.

(** The characters an integer literal in base ten can hold: digits, a
    sign, white space, and the [L] of a long. *)
Definition char_code (c : Ascii.ascii) : Z := Z.of_N (Ascii.N_of_ascii c).

Definition is_digit (c : Ascii.ascii) : bool :=
  bool_decide (48 ≤ char_code c ≤ 57).

Definition is_space (c : Ascii.ascii) : bool :=
  bool_decide (9 ≤ char_code c ≤ 13 ∨ char_code c = 32).




(** ** What the digest hands to its collaborators *)

Section Payloads.

(** A rendered block of messages, as [build_message_list] makes them. *)
Context {Block : Type}.

(** [teaser_data], lines 65-68. *)
Record Teaser := {
  participants : list string;
  count : Z;
  first_few_messages : list Block }.

Record StreamLinks := {
  html : list string;
  plain : list string }.

(** [template_payload] as it stands when the templates are rendered. *)
Record TemplatePayload := {
  tp_name : string;
  tp_unread_pms : list Block;
  tp_remaining_unread_pms_count : Z;
  tp_hot_conversations : option (list Teaser);
  tp_new_streams : StreamLinks;
  tp_new_streams_count : Z;
  tp_new_users : list string }.

Record Address := {
  addr_email : string;
  addr_name : string }.

(** The arguments of one [send_future_email] call. *)
Record Email := {
  email_recipients : list Address;
  email_html_content : string;
  email_text_content : string;
  email_subject : string;
  email_delay : Z;
  email_sender : Address;
  email_tags : list string }.

(** The calls made on the template and delivery collaborators. *)
Inductive Call :=
  | render_to_string_call (template : string) (payload : TemplatePayload)
  | send_future_email_call (email : Email).

Record World := {
  store : Store;
  calls : list Call }.

End Payloads.
Arguments Teaser : clear implicits.
Arguments TemplatePayload : clear implicits.
Arguments Email : clear implicits.
Arguments Call : clear implicits.
Arguments World : clear implicits.

(** The collaborators outside this module: [build_message_list] and
    [hashchange_encode] of zerver.lib.actions, the template loader, and
    the constant [Recipient.STREAM] of zerver.models. *)
Class Collaborators := {
  Block : Type;
  build_message_list : UserProfile → list Message → list Block;
  hashchange_encode : string → string;
  render_to_string : string → TemplatePayload Block → Result string;
  Recipient_STREAM : Z }.

(** ** The monad *)

Section Monad.

Context {Co : Collaborators}.

Definition M (A : Type) : Type := World Block → Result A * World Block.

Definition ret {A} (a : A) : M A := λ w, (Ok a, w).

Definition bind {A B} (m : M A) (k : A → M B) : M B :=
  λ w, match m w with
       | (Ok a, w') => k a w'
       | (Raise e, w') => (Raise e, w')
       end.

(** An exception the code does not catch. *)
Definition lift {A} (r : Result A) : M A := λ w, (r, w).

(** Iterating, slicing or measuring a query set runs it on the store. *)
Definition evaluate {A} (qs : QuerySet A) : M (list A) :=
  λ w, (Ok (qs (store w)), w).

(** [Model.objects.get(...)] *)
Definition objects_get {A} (P : A → Prop) `{∀ x, Decision (P x)}
    (objects : QuerySet A) : M A :=
  bind (evaluate (qs_filter P objects)) (λ rows,
    match rows with
    | [] => lift (Raise DoesNotExist)
    | [row] => ret row
    | _ :: _ :: _ => lift (Raise MultipleObjectsReturned)
    end).

(** [loader.render_to_string(template, payload)] *)
Definition loader_render_to_string (template : string)
    (payload : TemplatePayload Block) : M string :=
  λ w, (render_to_string template payload,
        {| store := store w;
           calls := calls w ++ [render_to_string_call template payload] |}).

(** [send_future_email(...)] *)
Definition send_future_email (recipients : list Address)
    (html_content text_content subject : string) (delay : Z)
    (sender : Address) (tags : list string) : M unit :=
  λ w, (Ok (),
        {| store := store w;
           calls := calls w ++ [send_future_email_call
             {| email_recipients := recipients;
                email_html_content := html_content;
                email_text_content := text_content;
                email_subject := subject;
                email_delay := delay;
                email_sender := sender;
                email_tags := tags |}] |}).

(** How one turn of a [for] loop ends. *)
Inductive Control (S R : Type) :=
  | Next (s : S)
  | Break (s : S)
  | Return (r : R).
Arguments Next {S R} s.
Arguments Break {S R} s.
Arguments Return {S R} r.

(** [for x in l: body], with the loop's variables threaded as [s]. *)
Fixpoint for_each {A S R} (l : list A) (body : A → S → M (Control S R))
    (s : S) : M (Control S R) :=
  match l with
  | [] => ret (Next s)
  | x :: l' =>
      bind (body x s) (λ c,
        match c with
        | Next s' => for_each l' body s'
        | Break s' => ret (Break s')
        | Return r => ret (Return r)
        end)
  end.

End Monad.
Arguments Next {_ _} s.
Arguments Break {_ _} s.
Arguments Return {_ _} r.

#[export] Instance M_ret {Co : Collaborators} : MRet M := @ret _.
#[export] Instance M_bind {Co : Collaborators} : MBind M :=
  λ A B k m, bind m k.

(** ** The module *)

Section Digest.

Context {Py : PythonRuntime} {Co : Collaborators}.

Definition conversation_key (user_message : UserMessage) : key :=
  (recipient_type_id (message_recipient (um_message user_message)),
   message_subject (um_message user_message)).

Definition sender_full_name (user_message : UserMessage) : string :=
  up_full_name (message_sender (um_message user_message)).

(** *** gather_hot_conversations (lines 21-71) *)

(** One turn of the loop of lines 31-36.  A [defaultdict] supplies the
    empty set, or [0], for a key it has not seen. *)
Definition count_message
    (tables : gmap key Z * gmap key (gset string))
    (user_message : UserMessage) : gmap key Z * gmap key (gset string) :=
  let '(conversation_length, conversation_diversity) := tables in
  let key := conversation_key user_message in
  let conversation_diversity :=
    <[key := default ∅ (conversation_diversity !! key)
               ∪ {[sender_full_name user_message]}]> conversation_diversity in
  let conversation_length :=
    <[key := default 0 (conversation_length !! key) + 1]>
      conversation_length in
  (conversation_length, conversation_diversity).

(** Lines 29-36. *)
Definition conversation_tables (stream_messages : list UserMessage)
    : gmap key Z * gmap key (gset string) :=
  foldl count_message (∅, ∅) stream_messages.

Definition conversation_length (stream_messages : list UserMessage)
    : gmap key Z :=
  (conversation_tables stream_messages).1.

Definition conversation_diversity (stream_messages : list UserMessage)
    : gmap key (gset string) :=
  (conversation_tables stream_messages).2.

(** Lines 38-39. *)
Definition diversity_list (stream_messages : list UserMessage)
    : list (key * gset string) :=
  sort_reverse (λ entry, Z.of_nat (size entry.2))
    (dict_items (conversation_diversity stream_messages)).

(** Lines 41-42. *)
Definition length_list (stream_messages : list UserMessage)
    : list (key * Z) :=
  sort_reverse (λ entry, entry.2)
    (dict_items (conversation_length stream_messages)).

(** Lines 47-51: the walk over the length list, with its [break]. *)
Fixpoint fill_from_length_list (length_list : list (key * Z))
    (hot_conversations : list key) : list key :=
  match length_list with
  | [] => hot_conversations
  | (candidate, _) :: rest =>
      let hot_conversations :=
        if decide (candidate ∉ hot_conversations)
        then hot_conversations ++ [candidate]
        else hot_conversations in
      if decide (len hot_conversations >= 4) then hot_conversations
      else fill_from_length_list rest hot_conversations
  end.

(** Lines 46-51. *)
Definition hot_conversations (stream_messages : list UserMessage)
    : list key :=
  fill_from_length_list (length_list stream_messages)
    ((take 2 (diversity_list stream_messages)).*1).

(** Lines 55-68: the body of the payload loop, up to the record. *)
Definition teaser_data (user_profile : UserProfile)
    (stream_messages : QuerySet UserMessage)
    (tables : gmap key Z * gmap key (gset string)) (h : key)
    : M (Teaser Block) :=
  let '(conversation_length, conversation_diversity) := tables in
  let '(stream_id, subject) := h in
  let users := elements (default ∅ (conversation_diversity !! h)) in
  let count := default 0 (conversation_length !! h) in
  rows ← evaluate (qs_limit 2 (qs_filter
    (λ user_message,
       recipient_type_id (message_recipient (um_message user_message))
         = stream_id
       ∧ message_subject (um_message user_message) = subject)
    stream_messages));
  let first_few_messages := um_message <$> rows in
  mret {| participants := users;
          count := count - len first_few_messages;
          first_few_messages :=
            build_message_list user_profile first_few_messages |}.

(** The function falls off its end, and so returns [None], when the
    payload loop has nothing to run on; the [return] of line 71 stands
    inside the loop. *)
Definition gather_hot_conversations (user_profile : UserProfile)
    (stream_messages : QuerySet UserMessage)
    : M (option (list (Teaser Block))) :=
  rows ← evaluate stream_messages;
  let tables := conversation_tables rows in
  let hot_conversations := hot_conversations rows in
  let hot_conversation_render_payloads := [] in
  c ← for_each hot_conversations
        (λ h hot_conversation_render_payloads,
           teaser_data ← teaser_data user_profile stream_messages tables h;
           let hot_conversation_render_payloads :=
             hot_conversation_render_payloads ++ [teaser_data] in
           mret (Return hot_conversation_render_payloads))
        hot_conversation_render_payloads;
  match c with
  | Return r => mret (Some r)
  | Next _ | Break _ => mret None
  end.

(** *** gather_new_users (lines 73-81) *)

Definition gather_new_users (user_profile : UserProfile) (threshold : Z)
    : M (Z * list string) :=
  new_users ← evaluate (qs_filter
    (λ user, up_realm user = up_realm user_profile
             ∧ up_date_joined user > threshold
             ∧ up_is_bot user = false)
    UserProfile_objects);
  let user_names := up_full_name <$> new_users in
  mret (len user_names, user_names).

(** *** gather_new_streams (lines 83-98) *)

Definition gather_new_streams (user_profile : UserProfile) (threshold : Z)
    : M (Z * StreamLinks) :=
  new_streams ← evaluate (qs_filter
    (λ stream, stream_realm stream = up_realm user_profile
               ∧ stream_date_created stream > threshold)
    Stream_objects);
  let base_url := "https://zulip.com/#narrow/stream/"%string in
  let '(streams_html, streams_plain) :=
    foldl (λ '(streams_html, streams_plain) stream,
             let narrow_url :=
               base_url +:+ hashchange_encode (stream_name stream) in
             let stream_link :=
               "<a href='" +:+ narrow_url +:+ "'>"
                 +:+ stream_name stream +:+ "</a>" in
             (streams_html ++ [stream_link],
              streams_plain ++ [stream_name stream]))
          ([], []) new_streams in
  mret (len new_streams,
        {| html := streams_html; plain := streams_plain |}).

(** *** handle_digest_email (lines 110-172) *)

Definition handle_digest_email (user_profile_id : Z) (cutoff : PyValue)
    : M unit :=
  user_profile ← objects_get (λ user, up_id user = user_profile_id)
                    UserProfile_objects;
  seconds ← lift (py_int cutoff);
  cutoff ← lift (utcfromtimestamp seconds);
  let all_messages :=
    qs_order_by (λ user_message, message_pub_date (um_message user_message))
      (qs_filter
         (λ user_message,
            up_id (um_user_profile user_message) = up_id user_profile
            ∧ message_pub_date (um_message user_message) > cutoff)
         UserMessage_objects) in
  let pms :=
    qs_filter
      (λ user_message,
         ¬ recipient_type (message_recipient (um_message user_message))
             = Recipient_STREAM)
      all_messages in
  let pms_limit := 4 in
  first_pms ← evaluate (qs_limit (Z.to_nat pms_limit) pms);
  let unread_pms :=
    build_message_list user_profile (um_message <$> first_pms) in
  all_pms ← evaluate pms;
  let remaining_unread_pms_count := Z.min 0 (len all_pms - pms_limit) in
  subscriptions ← evaluate (qs_filter
    (λ sub, up_id (sub_user_profile sub) = up_id user_profile
            ∧ sub_active sub = true ∧ sub_in_home_view sub = true)
    Subscription_objects);
  let home_view_recipients := sub_recipient <$> subscriptions in
  let stream_messages :=
    qs_filter
      (λ user_message,
         recipient_type (message_recipient (um_message user_message))
           = Recipient_STREAM
         ∧ recipient_id (message_recipient (um_message user_message))
             ∈ recipient_id <$> home_view_recipients)
      all_messages in
  hot_conversations ← gather_hot_conversations user_profile stream_messages;
  '(new_streams_count, new_streams) ←
    gather_new_streams user_profile cutoff;
  '(new_users_count, new_users) ← gather_new_users user_profile cutoff;
  let template_payload :=
    {| tp_name := up_full_name user_profile;
       tp_unread_pms := unread_pms;
       tp_remaining_unread_pms_count := remaining_unread_pms_count;
       tp_hot_conversations := hot_conversations;
       tp_new_streams := new_streams;
       tp_new_streams_count := new_streams_count;
       tp_new_users := new_users |} in
  text_content ← loader_render_to_string
    "zerver/emails/digest/digest_email.txt" template_payload;
  html_content ← loader_render_to_string
    "zerver/emails/digest/digest_email_html.txt" template_payload;
  let recipients :=
    [{| addr_email := up_email user_profile;
        addr_name := up_full_name user_profile |}] in
  let subject := "While you've been gone: the Zulip Digest"%string in
  let sender :=
    {| addr_email := "support@zulip.com"; addr_name := "Zulip Support" |} in
  if enough_traffic (tp_unread_pms template_payload)
       (tp_hot_conversations template_payload)
       new_streams_count new_users_count
  then send_future_email recipients html_content text_content subject
         0 sender ["digest-emails"%string]
  else mret ().

End Digest.

(** ** The vocabulary of the specification *)

Section Vocabulary.

Context {Py : PythonRuntime} {Co : Collaborators}.

(** The messages of one conversation, in the order they were given. *)
Definition messages_of (stream_messages : list UserMessage) (k : key)
    : list UserMessage :=
  filter (λ user_message, conversation_key user_message = k) stream_messages.

(** The length of a conversation: how many messages it has. *)
Definition message_count (stream_messages : list UserMessage) (k : key) : Z :=
  len (messages_of stream_messages k).

(** The diversity of a conversation: its distinct sender names. *)
Definition participant_names (stream_messages : list UserMessage) (k : key)
    : gset string :=
  list_to_set (sender_full_name <$> messages_of stream_messages k).

Definition sender_count (stream_messages : list UserMessage) (k : key) : Z :=
  Z.of_nat (size (participant_names stream_messages k)).

(** The distinct conversation keys of the input. *)
Definition conversation_keys (stream_messages : list UserMessage)
    : list key :=
  remove_dups (conversation_key <$> stream_messages).

(** The record the payload loop builds for the conversation [h]. *)
Definition teaser_of (user_profile : UserProfile)
    (stream_messages : list UserMessage) (h : key) : Teaser Block :=
  let first_few := um_message <$> take 2 (messages_of stream_messages h) in
  {| participants := elements (participant_names stream_messages h);
     count := message_count stream_messages h - len first_few;
     first_few_messages := build_message_list user_profile first_few |}.

(** The users and the streams a digest may report as new. *)
Definition is_new_user (user_profile : UserProfile) (threshold : Z)
    (user : UserProfile) : Prop :=
  up_realm user = up_realm user_profile
  ∧ up_date_joined user > threshold
  ∧ up_is_bot user = false.

Definition is_new_stream (user_profile : UserProfile) (threshold : Z)
    (stream : Stream) : Prop :=
  stream_realm stream = up_realm user_profile
  ∧ stream_date_created stream > threshold.

Definition stream_link (stream : Stream) : string :=
  "<a href='" +:+ ("https://zulip.com/#narrow/stream/"
                    +:+ hashchange_encode (stream_name stream))
    +:+ "'>" +:+ stream_name stream +:+ "</a>".

(** The user's messages published after [cutoff], oldest first. *)
Definition messages_after (st : Store) (user_profile : UserProfile)
    (cutoff : Z) : list UserMessage :=
  stable_sort
    (λ y x, message_pub_date (um_message y)
              <? message_pub_date (um_message x))
    (filter
       (λ user_message,
          up_id (um_user_profile user_message) = up_id user_profile
          ∧ message_pub_date (um_message user_message) > cutoff)
       (UserMessage_objects st)).

(** Those of them that did not go to a stream. *)
Definition direct_messages (st : Store) (user_profile : UserProfile)
    (cutoff : Z) : list UserMessage :=
  filter
    (λ user_message,
       recipient_type (message_recipient (um_message user_message))
         ≠ Recipient_STREAM)
    (messages_after st user_profile cutoff).

(** The recipients of the user's active home-view subscriptions. *)
Definition home_view_recipient_ids (st : Store) (user_profile : UserProfile)
    : list Z :=
  recipient_id <$>
    (sub_recipient <$>
       filter
         (λ sub, up_id (sub_user_profile sub) = up_id user_profile
                 ∧ sub_active sub = true ∧ sub_in_home_view sub = true)
         (Subscription_objects st)).

(** Those that went to a stream of the user's home view. *)
Definition visible_stream_messages (st : Store) (user_profile : UserProfile)
    (cutoff : Z) : list UserMessage :=
  filter
    (λ user_message,
       recipient_type (message_recipient (um_message user_message))
         = Recipient_STREAM
       ∧ recipient_id (message_recipient (um_message user_message))
           ∈ home_view_recipient_ids st user_profile)
    (messages_after st user_profile cutoff).

(** What [gather_hot_conversations] hands back on given messages. *)
Definition hot_conversation_payloads (user_profile : UserProfile)
    (stream_messages : list UserMessage) : option (list (Teaser Block)) :=
  match hot_conversations stream_messages with
  | [] => None
  | h :: _ => Some [teaser_of user_profile stream_messages h]
  end.

(** The payload the templates receive. *)
Definition digest_payload (st : Store) (user_profile : UserProfile)
    (cutoff : Z) : TemplatePayload Block :=
  let new_streams :=
    filter (is_new_stream user_profile cutoff) (Stream_objects st) in
  let new_users :=
    filter (is_new_user user_profile cutoff) (UserProfile_objects st) in
  let pms := direct_messages st user_profile cutoff in
  {| tp_name := up_full_name user_profile;
     tp_unread_pms :=
       build_message_list user_profile (um_message <$> take 4 pms);
     tp_remaining_unread_pms_count := Z.min 0 (len pms - 4);
     tp_hot_conversations :=
       hot_conversation_payloads user_profile
         (visible_stream_messages st user_profile cutoff);
     tp_new_streams :=
       {| html := stream_link <$> new_streams;
          plain := stream_name <$> new_streams |};
     tp_new_streams_count := len new_streams;
     tp_new_users := up_full_name <$> new_users |}.

(** The email of lines 160-172, for given rendered contents. *)
Definition digest_email (user_profile : UserProfile)
    (html_content text_content : string) : Email :=
  {| email_recipients :=
       [{| addr_email := up_email user_profile;
           addr_name := up_full_name user_profile |}];
     email_html_content := html_content;
     email_text_content := text_content;
     email_subject := "While you've been gone: the Zulip Digest";
     email_delay := 0;
     email_sender :=
       {| addr_email := "support@zulip.com"; addr_name := "Zulip Support" |};
     email_tags := ["digest-emails"%string] |}.

(** The world after one more collaborator call. *)
Definition logged (w : World Block) (call : Call Block) : World Block :=
  {| store := store w; calls := calls w ++ [call] |}.

Definition text_template : string := "zerver/emails/digest/digest_email.txt".
Definition html_template : string :=
  "zerver/emails/digest/digest_email_html.txt".

(** The gate of lines 165-167 on an assembled payload. *)
Definition gate (payload : TemplatePayload Block) : bool :=
  enough_traffic (tp_unread_pms payload) (tp_hot_conversations payload)
    (tp_new_streams_count payload) (len (tp_new_users payload)).

(** Lines 155-172 on an assembled payload: render twice, then send if
    the gate passes. *)
Definition render_and_send (w : World Block) (user_profile : UserProfile)
    (payload : TemplatePayload Block) : Result unit * World Block :=
  let w1 := logged w (render_to_string_call text_template payload) in
  match render_to_string text_template payload with
  | Raise e => (Raise e, w1)
  | Ok text_content =>
      let w2 := logged w1 (render_to_string_call html_template payload) in
      match render_to_string html_template payload with
      | Raise e => (Raise e, w2)
      | Ok html_content =>
          if gate payload
          then (Ok (),
                logged w2 (send_future_email_call
                  (digest_email user_profile html_content text_content)))
          else (Ok (), w2)
      end
  end.

(** A computation that leaves the world as it found it. *)
Definition read_only {A} (m : M A) : Prop := ∀ w, (m w).2 = w.

(** A computation that leaves the store as it found it and at most adds
    calls to the log. *)
Definition store_preserving {A} (m : M A) : Prop :=
  ∀ w, store (m w).2 = store w
       ∧ ∃ new_calls, calls (m w).2 = calls w ++ new_calls.

(** The user id resolves to exactly this user. *)
Definition resolves_to (st : Store) (user_profile_id : Z)
    (user_profile : UserProfile) : Prop :=
  filter (λ user, up_id user = user_profile_id) (UserProfile_objects st)
    = [user_profile].

End Vocabulary.

(** ** A sample realm *)

Module Sample.

(** A reader of decimal literals: white space around, a sign in front. *)
Fixpoint skip_spaces (l : list Ascii.ascii) : list Ascii.ascii :=
  match l with
  | c :: l' => if is_space c then skip_spaces l' else l
  | [] => []
  end.

Definition read_sign (l : list Ascii.ascii) : bool * list Ascii.ascii :=
  match l with
  | c :: l' =>
      if decide (char_code c = 45) then (true, l')
      else if decide (char_code c = 43) then (false, l')
      else (false, l)
  | [] => (false, [])
  end.

Fixpoint read_digits (acc : Z) (l : list Ascii.ascii)
    : Z * list Ascii.ascii :=
  match l with
  | c :: l' =>
      if is_digit c then read_digits (10 * acc + (char_code c - 48)) l'
      else (acc, l)
  | [] => (acc, [])
  end.

Definition read_decimal (s : string) : option Z :=
  let '(negative, l) :=
    read_sign (skip_spaces (String.list_ascii_of_string s)) in
  match l with
  | c :: _ =>
      if is_digit c
      then let '(n, rest) := read_digits 0 l in
           match skip_spaces rest with
           | [] => Some (if negative : bool then - n else n)
           | _ :: _ => None
           end
      else None
  | [] => None
  end.

(** Instants in microseconds; years 1 to 9999 are in range. *)
#[export] Instance runtime : PythonRuntime := {|
  dict_items := λ V, map_to_list;
  dict_items_perm := λ V m, reflexivity (map_to_list m);
  int_of_string := read_decimal;
  utcfromtimestamp := λ seconds,
    if decide (-62135596800 ≤ seconds ≤ 253402300799)
    then Ok (seconds * 1000000) else Raise ValueError |}.

#[export] Instance collaborators : Collaborators := {|
  Block := string;
  build_message_list := λ _ messages, message_content <$> messages;
  hashchange_encode := λ name, name;
  render_to_string := λ template _, Ok template;
  Recipient_STREAM := 2 |}.

Definition user (id : Z) (name : string) (joined : Z) : UserProfile :=
  {| up_id := id; up_realm := 1; up_full_name := name;
     up_email := name +:+ "@example.com";
     up_date_joined := joined; up_is_bot := false |}.

Definition alice : UserProfile := user 1 "alice" 0.
Definition bob : UserProfile := user 2 "bob" 0.
Definition carol : UserProfile := user 3 "carol" 5000000.

(** The stream 7 and alice's private inbox. *)
Definition to_stream : Recipient :=
  {| recipient_id := 10; recipient_type := 2; recipient_type_id := 7 |}.
Definition to_alice : Recipient :=
  {| recipient_id := 11; recipient_type := 1; recipient_type_id := 1 |}.

Definition received (id : Z) (sender : UserProfile) (recipient : Recipient)
    (subject : string) (pub_date : Z) : UserMessage :=
  {| um_user_profile := alice;
     um_message :=
       {| message_id := id; message_sender := sender;
          message_recipient := recipient; message_subject := subject;
          message_pub_date := pub_date; message_content := "hello" |} |}.

(** Two conversations on the stream, three messages. *)
Definition stream_traffic : list UserMessage :=
  [received 1 bob to_stream "lunch" 2000000;
   received 2 bob to_stream "dinner" 3000000;
   received 3 carol to_stream "dinner" 4000000].

(** Six private messages. *)
Definition private_traffic : list UserMessage :=
  (λ i, received (10 + i) bob to_alice "(no topic)" (5000000 + i)) <$>
    [1; 2; 3; 4; 5; 6].

Definition realm : Store :=
  {| UserProfile_objects := [alice; bob; carol];
     Stream_objects :=
       [{| stream_name := "social"; stream_realm := 1;
           stream_date_created := 1000000 |}];
     UserMessage_objects := stream_traffic ++ private_traffic;
     Subscription_objects :=
       [{| sub_user_profile := alice; sub_recipient := to_stream;
           sub_active := true; sub_in_home_view := true |}] |}.

Definition world : World Block := {| store := realm; calls := [] |}.

(** A realm where nothing happened. *)
Definition quiet_realm : Store :=
  {| UserProfile_objects := [alice; bob];
     Stream_objects :=
       [{| stream_name := "social"; stream_realm := 1;
           stream_date_created := 0 |}];
     UserMessage_objects := [];
     Subscription_objects :=
       [{| sub_user_profile := alice; sub_recipient := to_stream;
           sub_active := true; sub_in_home_view := true |}] |}.

Definition quiet_world : World Block :=
  {| store := quiet_realm; calls := [] |}.

(** All of alice's stream messages, as a query. *)
Definition stream_messages : QuerySet UserMessage :=
  qs_filter
    (λ user_message,
       recipient_type (message_recipient (um_message user_message)) = 2)
    UserMessage_objects.

(** A runtime that lists dictionary entries the other way round. *)
#[export] Instance reversed_runtime : PythonRuntime := {|
  dict_items := λ V m, reverse (map_to_list m);
  dict_items_perm := λ V m, reverse_Permutation (map_to_list m);
  int_of_string := read_decimal;
  utcfromtimestamp := λ seconds,
    if decide (-62135596800 ≤ seconds ≤ 253402300799)
    then Ok (seconds * 1000000) else Raise ValueError |}.

(** Collaborators whose HTML template is broken. *)
#[export] Instance broken_html : Collaborators := {|
  Block := string;
  build_message_list := λ _ messages, message_content <$> messages;
  hashchange_encode := λ name, name;
  render_to_string := λ template _,
    if decide (template = "zerver/emails/digest/digest_email.txt")
    then Ok template else Raise (CollaboratorError "TemplateSyntaxError");
  Recipient_STREAM := 2 |}.

(** Collaborators whose text template is broken. *)
#[export] Instance broken_text : Collaborators := {|
  Block := string;
  build_message_list := λ _ messages, message_content <$> messages;
  hashchange_encode := λ name, name;
  render_to_string := λ _ _, Raise (CollaboratorError "TemplateSyntaxError");
  Recipient_STREAM := 2 |}.

(** A realm with a new stream and a new user and no messages. *)
Definition growing_realm : Store :=
  {| UserProfile_objects := [alice; bob; carol];
     Stream_objects :=
       [{| stream_name := "social"; stream_realm := 1;
           stream_date_created := 1000000 |}];
     UserMessage_objects := [];
     Subscription_objects := [] |}.

Definition growing_world : World Block :=
  {| store := growing_realm; calls := [] |}.

(** Six conversations on the stream. *)
Definition busy_traffic : list UserMessage :=
  [received 21 bob to_stream "a" 1; received 22 carol to_stream "a" 2;
   received 23 bob to_stream "b" 3; received 24 carol to_stream "b" 4;
   received 25 alice to_stream "b" 5;
   received 26 bob to_stream "c" 6; received 27 bob to_stream "c" 7;
   received 28 bob to_stream "c" 8; received 29 bob to_stream "c" 9;
   received 30 bob to_stream "d" 10; received 31 bob to_stream "d" 11;
   received 32 bob to_stream "d" 12;
   received 33 bob to_stream "e" 13;
   received 34 bob to_stream "f" 14; received 35 bob to_stream "f" 15].


End Sample.

(** ** Sorting *)

Section Sorting.

Context {A : Type}.
Implicit Types (before : A → A → bool) (f : A → Z) (l : list A).

Lemma insert_stable_perm before x l : insert_stable before x l ≡ₚ x :: l.
Proof.
  induction l as [|y l IH]; simpl; [done|].
  destruct (before y x); [|done].
  rewrite IH. apply Permutation_swap.
Qed.

Lemma stable_sort_perm before l : stable_sort before l ≡ₚ l.
Proof.
  induction l as [|x l IH]; simpl; [done|].
  rewrite insert_stable_perm. by f_equiv.
Qed.

Lemma stable_sort_length before l :
  length (stable_sort before l) = length l.
Proof. apply Permutation_length, stable_sort_perm. Qed.

Lemma stable_sort_elem_of before l x : x ∈ stable_sort before l ↔ x ∈ l.
Proof. by rewrite stable_sort_perm. Qed.

Lemma insert_reverse_sorted f x l :
  StronglySorted (λ a b, f b ≤ f a) l →
  StronglySorted (λ a b, f b ≤ f a)
    (insert_stable (λ y x, f x <? f y) x l).
Proof.
  induction 1 as [|y l Hl IH Hy]; simpl.
  - repeat constructor.
  - destruct (Z.ltb_spec (f x) (f y)) as [Hlt|Hge].
    + constructor; [done|].
      rewrite insert_stable_perm. constructor; [lia|done].
    + constructor; [by constructor|].
      constructor; [lia|].
      eapply Forall_impl; [exact Hy|]. simpl. intros; lia.
Qed.

Lemma sort_reverse_sorted f l :
  StronglySorted (λ a b, f b ≤ f a) (sort_reverse f l).
Proof.
  unfold sort_reverse.
  induction l as [|x l IH]; simpl; [constructor|].
  by apply insert_reverse_sorted.
Qed.

Lemma sort_reverse_perm f l : sort_reverse f l ≡ₚ l.
Proof. apply stable_sort_perm. Qed.

End Sorting.

(** ** The two tables of lines 29-36 *)

Section Tables.

Implicit Types (stream_messages : list UserMessage) (k : key).

Lemma messages_of_snoc stream_messages user_message k :
  messages_of (stream_messages ++ [user_message]) k
  = messages_of stream_messages k
    ++ (if decide (conversation_key user_message = k)
        then [user_message] else []).
Proof.
  unfold messages_of. by rewrite filter_app.
Qed.

Lemma messages_of_unknown stream_messages k :
  k ∉ conversation_key <$> stream_messages →
  messages_of stream_messages k = [].
Proof.
  intros Hk. unfold messages_of.
  induction stream_messages as [|um l IH]; [done|].
  rewrite fmap_cons, not_elem_of_cons in Hk. destruct Hk as [Hne Hl].
  rewrite filter_cons_False by done. auto.
Qed.

Lemma message_count_unknown stream_messages k :
  k ∉ conversation_key <$> stream_messages →
  message_count stream_messages k = 0.
Proof.
  intros Hk. unfold message_count. by rewrite messages_of_unknown.
Qed.

Lemma participant_names_unknown stream_messages k :
  k ∉ conversation_key <$> stream_messages →
  participant_names stream_messages k = ∅.
Proof.
  intros Hk. unfold participant_names. by rewrite messages_of_unknown.
Qed.

Lemma conversation_tables_snoc stream_messages user_message :
  conversation_tables (stream_messages ++ [user_message])
  = count_message (conversation_tables stream_messages) user_message.
Proof. unfold conversation_tables. by rewrite foldl_snoc. Qed.

(** After the loop, each table holds exactly the keys met, with the
    number of messages and the set of sender names of each. *)
Lemma conversation_tables_lookup stream_messages k :
  conversation_length stream_messages !! k
  = (if decide (k ∈ conversation_key <$> stream_messages)
     then Some (message_count stream_messages k) else None)
  ∧ conversation_diversity stream_messages !! k
    = (if decide (k ∈ conversation_key <$> stream_messages)
       then Some (participant_names stream_messages k) else None).
Proof.
  unfold conversation_length, conversation_diversity.
  induction stream_messages as [|um l IH] using rev_ind.
  { split; apply lookup_empty. }
  rewrite conversation_tables_snoc.
  destruct (conversation_tables l) as [lengths diversities].
  simpl in IH. destruct IH as [IHl IHd]. simpl.
  assert (Hlen : default 0 (lengths !! k) = message_count l k).
  { rewrite IHl. case_decide; [done|]. by rewrite message_count_unknown. }
  assert (Hdiv : default ∅ (diversities !! k) = participant_names l k).
  { rewrite IHd. case_decide; [done|]. by rewrite participant_names_unknown. }
  assert (Hin : k ∈ conversation_key <$> l ++ [um]
                ↔ k ∈ conversation_key <$> l ∨ k = conversation_key um).
  { rewrite fmap_app, elem_of_app. simpl. rewrite list_elem_of_singleton.
    done. }
  unfold message_count, participant_names in *.
  rewrite messages_of_snoc.
  destruct (decide (conversation_key um = k)) as [Heq|Hne].
  - rewrite Heq, !lookup_insert_eq, Hlen, Hdiv.
    rewrite !decide_True by (apply Hin; by right).
    split; f_equal.
    + unfold len. rewrite length_app. simpl. lia.
    + rewrite fmap_app, list_to_set_app_L. simpl. set_solver.
  - rewrite !lookup_insert_ne by done. rewrite IHl, IHd.
    rewrite !app_nil_r.
    split; repeat case_decide; try done; naive_solver.
Qed.

Lemma conversation_length_default stream_messages k :
  default 0 (conversation_length stream_messages !! k)
  = message_count stream_messages k.
Proof.
  rewrite (proj1 (conversation_tables_lookup _ _)).
  case_decide; [done|]. by rewrite message_count_unknown.
Qed.

Lemma conversation_diversity_default stream_messages k :
  default ∅ (conversation_diversity stream_messages !! k)
  = participant_names stream_messages k.
Proof.
  rewrite (proj2 (conversation_tables_lookup _ _)).
  case_decide; [done|]. by rewrite participant_names_unknown.
Qed.

End Tables.

(** ** The rankings and the selection of lines 38-51 *)

Section Selection.

Context {Py : PythonRuntime}.
Implicit Types (stream_messages : list UserMessage) (k : key).

Lemma dict_items_keys {V} (m : gmap key V) :
  NoDup (dict_items m).*1 ∧ ∀ k, k ∈ (dict_items m).*1 ↔ is_Some (m !! k).
Proof.
  assert (Hp : (dict_items m).*1 ≡ₚ (map_to_list m).*1)
    by (by rewrite dict_items_perm).
  split.
  - rewrite Hp. apply NoDup_fst_map_to_list.
  - intros k. rewrite Hp, list_elem_of_fmap. split.
    + intros [[k' v] [-> Hkv]]. apply elem_of_map_to_list in Hkv. by eexists.
    + intros [v Hv]. exists (k, v). split; [done|].
      by apply elem_of_map_to_list.
Qed.

Lemma dict_items_lookup {V} (m : gmap key V) k v :
  (k, v) ∈ dict_items m ↔ m !! k = Some v.
Proof. by rewrite dict_items_perm, elem_of_map_to_list. Qed.

Lemma conversation_keys_NoDup stream_messages :
  NoDup (conversation_keys stream_messages).
Proof. apply NoDup_remove_dups. Qed.

Lemma elem_of_conversation_keys stream_messages k :
  k ∈ conversation_keys stream_messages
  ↔ k ∈ conversation_key <$> stream_messages.
Proof. apply elem_of_remove_dups. Qed.

(** Both rankings list every conversation key exactly once. *)
Lemma diversity_list_keys stream_messages :
  (diversity_list stream_messages).*1 ≡ₚ conversation_keys stream_messages.
Proof.
  unfold diversity_list. rewrite sort_reverse_perm.
  destruct (dict_items_keys (conversation_diversity stream_messages))
    as [Hnd Hin].
  apply NoDup_Permutation; [done|apply conversation_keys_NoDup|].
  intros k. rewrite Hin, elem_of_conversation_keys.
  rewrite (proj2 (conversation_tables_lookup _ _)).
  case_decide; split; try done; by intros [? ?].
Qed.

Lemma length_list_keys stream_messages :
  (length_list stream_messages).*1 ≡ₚ conversation_keys stream_messages.
Proof.
  unfold length_list. rewrite sort_reverse_perm.
  destruct (dict_items_keys (conversation_length stream_messages))
    as [Hnd Hin].
  apply NoDup_Permutation; [done|apply conversation_keys_NoDup|].
  intros k. rewrite Hin, elem_of_conversation_keys.
  rewrite (proj1 (conversation_tables_lookup _ _)).
  case_decide; split; try done; by intros [? ?].
Qed.

(** A list of entries sorted on a value that depends on the key alone is
    a list of keys sorted on that value. *)
Lemma sorted_entries_keys {V} (f : key * V → Z) (g : key → Z)
    (l : list (key * V)) :
  Forall (λ entry, f entry = g entry.1) l →
  StronglySorted (λ a b, f b ≤ f a) l →
  StronglySorted (λ k1 k2, g k2 ≤ g k1) l.*1.
Proof.
  intros Hfg Hs. induction Hs as [|entry l Hs IH Hall]; simpl.
  - constructor.
  - apply Forall_cons in Hfg as [Hentry Hl].
    constructor; [by apply IH|].
    apply Forall_fmap. rewrite Forall_forall in *.
    intros entry' Hin. simpl.
    rewrite <-Hentry, <-(Hl _ Hin). by apply Hall.
Qed.

Lemma diversity_list_sorted stream_messages :
  StronglySorted
    (λ k1 k2, sender_count stream_messages k2
                ≤ sender_count stream_messages k1)
    (diversity_list stream_messages).*1.
Proof.
  apply sorted_entries_keys
    with (f := λ entry, Z.of_nat (size entry.2));
    [|apply sort_reverse_sorted].
  apply Forall_forall. intros [k names] Hin. simpl.
  unfold diversity_list in Hin.
  rewrite sort_reverse_perm, dict_items_lookup in Hin.
  rewrite (proj2 (conversation_tables_lookup _ _)) in Hin.
  case_decide; [|done]. by injection Hin as <-.
Qed.

Lemma length_list_sorted stream_messages :
  StronglySorted
    (λ k1 k2, message_count stream_messages k2
                ≤ message_count stream_messages k1)
    (length_list stream_messages).*1.
Proof.
  apply sorted_entries_keys with (f := λ entry, entry.2);
    [|apply sort_reverse_sorted].
  apply Forall_forall. intros [k n] Hin. simpl.
  unfold length_list in Hin.
  rewrite sort_reverse_perm, dict_items_lookup in Hin.
  rewrite (proj1 (conversation_tables_lookup _ _)) in Hin.
  case_decide; [|done]. by injection Hin as <-.
Qed.

Lemma filter_ext_elem_of {A} (P Q : A → Prop)
    `{∀ x, Decision (P x)} `{∀ x, Decision (Q x)} (l : list A) :
  (∀ x, x ∈ l → P x ↔ Q x) → filter P l = filter Q l.
Proof.
  induction l as [|x l IH]; intros Hl; [done|].
  rewrite !filter_cons.
  rewrite IH by (intros y Hy; apply Hl; by right).
  destruct (decide (P x)) as [HP|HP], (decide (Q x)) as [HQ|HQ];
    try done; exfalso; apply (Hl x) in HP || apply (Hl x) in HQ;
    try done; by left.
Qed.

(** The walk of lines 47-51 appends, in order, the keys of the length
    list that are not selected yet, until four keys are selected. *)
Lemma fill_from_length_list_spec (entries : list (key * Z))
    (selected : list key) :
  NoDup entries.*1 →
  (length selected < 4)%nat →
  fill_from_length_list entries selected
  = selected ++ take (4 - length selected)
                  (filter (λ k, k ∉ selected) entries.*1).
Proof.
  revert selected.
  induction entries as [|[candidate n] rest IH]; intros selected Hnd Hlt.
  { simpl. by rewrite filter_nil, take_nil, app_nil_r. }
  rewrite fmap_cons in Hnd. simpl in Hnd.
  apply NoDup_cons in Hnd as [Hfresh Hnd].
  simpl. rewrite filter_cons. simpl.
  destruct (decide (candidate ∉ selected)) as [Hnew|Hold].
  - destruct (4 - length selected)%nat as [|room] eqn:Hroom; [lia|].
    simpl. unfold len. rewrite length_app. simpl.
    case_decide as Hfull.
    + replace room with 0%nat by lia. by rewrite take_0.
    + rewrite IH; [|done|rewrite length_app; simpl; lia].
      rewrite <-app_assoc. simpl. do 2 f_equal.
      rewrite length_app. simpl.
      replace (4 - (length selected + 1))%nat with room by lia.
      f_equal. apply filter_ext_elem_of. intros k Hk.
      rewrite elem_of_app, list_elem_of_singleton.
      split; [tauto|]. intros Hks [?| ->]; done.
  - unfold len. case_decide as Hfull; [lia|].
    by apply IH.
Qed.

Lemma filter_all {A} (P : A → Prop) `{∀ x, Decision (P x)} (l : list A) :
  Forall P l → filter P l = l.
Proof.
  induction 1 as [|x l HP _ IH]; [done|].
  by rewrite filter_cons_True, IH.
Qed.

Lemma filter_none {A} (P : A → Prop) `{∀ x, Decision (P x)} (l : list A) :
  Forall (λ x, ¬ P x) l → filter P l = [].
Proof.
  induction 1 as [|x l HP _ IH]; [done|].
  by rewrite filter_cons_False.
Qed.

(** In a list without duplicates, what is not among the first [n]
    entries is what comes after them. *)
Lemma filter_not_in_take {A} `{EqDecision A} (l : list A) (n : nat) :
  NoDup l → filter (λ x, x ∉ take n l) l = drop n l.
Proof.
  intros Hnd. rewrite <-(take_drop n l) in Hnd at 1.
  apply NoDup_app in Hnd as (_ & Hdisj & _).
  trans (filter (λ x, x ∉ take n l) (take n l ++ drop n l));
    [by rewrite take_drop|].
  rewrite filter_app, filter_none, filter_all; [done| |].
  - apply Forall_forall. intros x Hx Hin. by apply (Hdisj x).
  - apply Forall_forall. intros x Hx Hnot. by apply Hnot.
Qed.

Lemma length_list_NoDup stream_messages :
  NoDup (length_list stream_messages).*1.
Proof. rewrite length_list_keys. apply conversation_keys_NoDup. Qed.

Lemma diversity_list_NoDup stream_messages :
  NoDup (diversity_list stream_messages).*1.
Proof. rewrite diversity_list_keys. apply conversation_keys_NoDup. Qed.

Lemma hot_conversations_eq stream_messages :
  let seed := take 2 (diversity_list stream_messages).*1 in
  hot_conversations stream_messages
  = seed ++ take (4 - length seed)
              (filter (λ k, k ∉ seed) (length_list stream_messages).*1).
Proof.
  intros seed. unfold hot_conversations. rewrite fmap_take.
  apply fill_from_length_list_spec; [apply length_list_NoDup|].
  subst seed. rewrite length_take. lia.
Qed.

(** The keys the length list can still add are those past the seed. *)
Lemma length_list_without_seed stream_messages :
  filter (λ k, k ∉ take 2 (diversity_list stream_messages).*1)
    (length_list stream_messages).*1
  ≡ₚ drop 2 (diversity_list stream_messages).*1.
Proof.
  rewrite <-(filter_not_in_take _ 2) by apply diversity_list_NoDup.
  apply filter_Permutation.
  by rewrite length_list_keys, diversity_list_keys.
Qed.

Lemma hot_conversations_NoDup stream_messages :
  NoDup (hot_conversations stream_messages).
Proof.
  rewrite hot_conversations_eq. apply NoDup_app. split_and!.
  - eapply sublist_NoDup; [apply diversity_list_NoDup|apply sublist_take].
  - intros k Hseed Hk. apply elem_of_take in Hk as (i & Hk & _).
    apply list_elem_of_lookup_2, list_elem_of_filter in Hk as [Hnot _].
    done.
  - eapply sublist_NoDup; [|apply sublist_take].
    apply NoDup_filter, length_list_NoDup.
Qed.

Lemma hot_conversations_length stream_messages :
  length (hot_conversations stream_messages)
  = (4 `min` length (conversation_keys stream_messages))%nat.
Proof.
  rewrite hot_conversations_eq. cbv zeta.
  rewrite length_app, !length_take, length_list_without_seed, length_drop.
  rewrite diversity_list_keys. lia.
Qed.

Lemma hot_conversations_nil : hot_conversations [] = [].
Proof.
  apply length_zero_iff_nil. by rewrite hot_conversations_length.
Qed.

Lemma hot_conversations_nonempty stream_messages :
  stream_messages ≠ [] → hot_conversations stream_messages ≠ [].
Proof.
  intros Hne Hhot. apply (f_equal length) in Hhot.
  rewrite hot_conversations_length in Hhot.
  destruct stream_messages as [|um l]; [done|].
  assert (Hin : conversation_key um ∈ conversation_keys (um :: l)).
  { apply elem_of_conversation_keys. rewrite fmap_cons. left. }
  destruct (conversation_keys (um :: l)); [by apply elem_of_nil in Hin|].
  simpl in Hhot. lia.
Qed.

End Selection.

(** ** Running the module on a world *)

Section Runs.

Context {Py : PythonRuntime} {Co : Collaborators}.
Implicit Types (w : World Block) (user_profile : UserProfile).

Lemma bind_run {A B} (m : M A) (k : A → M B) w :
  (m ≫= k) w
  = match m w with
    | (Ok a, w') => k a w'
    | (Raise e, w') => (Raise e, w')
    end.
Proof. reflexivity. Qed.

Lemma for_each_cons {A S R} (x : A) (l : list A)
    (body : A → S → M (Control S R)) (s : S) w :
  for_each (x :: l) body s w
  = match body x s w with
    | (Ok (Next s'), w') => for_each l body s' w'
    | (Ok (Break s'), w') => (Ok (Break s'), w')
    | (Ok (Return r), w') => (Ok (Return r), w')
    | (Raise e, w') => (Raise e, w')
    end.
Proof.
  simpl. unfold bind. by destruct (body x s w) as [[[?|?|?]|?] ?].
Qed.

Lemma evaluate_run {A} (qs : QuerySet A) w :
  evaluate qs w = (Ok (qs (store w)), w).
Proof. reflexivity. Qed.

Lemma mret_run {A} (a : A) w : (mret a : M A) w = (Ok a, w).
Proof. reflexivity. Qed.

Lemma teaser_data_run user_profile (stream_messages : QuerySet UserMessage)
    (h : key) w :
  teaser_data user_profile stream_messages
    (conversation_tables (stream_messages (store w))) h w
  = (Ok (teaser_of user_profile (stream_messages (store w)) h), w).
Proof.
  pose proof (conversation_length_default (stream_messages (store w)) h)
    as Hlen.
  pose proof (conversation_diversity_default (stream_messages (store w)) h)
    as Hdiv.
  unfold conversation_length, conversation_diversity in *.
  unfold teaser_data.
  destruct (conversation_tables (stream_messages (store w)))
    as [lengths diversities].
  destruct h as [stream_id subject]. simpl in Hlen, Hdiv.
  rewrite bind_run, evaluate_run, mret_run.
  unfold qs_limit, qs_filter, teaser_of, message_count, messages_of.
  rewrite Hlen, Hdiv.
  rewrite (list_filter_iff _
    (λ user_message, conversation_key user_message = (stream_id, subject))).
  - unfold len. by rewrite !length_fmap.
  - intros user_message. unfold conversation_key. split.
    + by intros [-> ->].
    + by intros [= -> ->].
Qed.

Lemma gather_hot_conversations_run user_profile
    (stream_messages : QuerySet UserMessage) w :
  gather_hot_conversations user_profile stream_messages w
  = (Ok (hot_conversation_payloads user_profile (stream_messages (store w))),
     w).
Proof.
  unfold gather_hot_conversations, hot_conversation_payloads.
  rewrite bind_run, evaluate_run.
  destruct (hot_conversations (stream_messages (store w))) as [|h rest].
  - reflexivity.
  - rewrite bind_run, for_each_cons, bind_run, teaser_data_run.
    reflexivity.
Qed.

Lemma gather_new_users_run user_profile (threshold : Z) w :
  let new_users :=
    filter (is_new_user user_profile threshold)
      (UserProfile_objects (store w)) in
  gather_new_users user_profile threshold w
  = (Ok (len (up_full_name <$> new_users), up_full_name <$> new_users), w).
Proof. reflexivity. Qed.

Lemma stream_links_fold (new_streams : list Stream)
    (streams_html streams_plain : list string) :
  foldl (λ '(streams_html, streams_plain) stream,
           let narrow_url :=
             "https://zulip.com/#narrow/stream/"
               +:+ hashchange_encode (stream_name stream) in
           let stream_link :=
             "<a href='" +:+ narrow_url +:+ "'>"
               +:+ stream_name stream +:+ "</a>" in
           (streams_html ++ [stream_link],
            streams_plain ++ [stream_name stream]))
        (streams_html, streams_plain) new_streams
  = (streams_html ++ (stream_link <$> new_streams),
     streams_plain ++ (stream_name <$> new_streams)).
Proof.
  revert streams_html streams_plain.
  induction new_streams as [|stream l IH]; intros streams_html streams_plain.
  - simpl. by rewrite !app_nil_r.
  - simpl foldl. rewrite IH, !fmap_cons, <-!app_assoc. reflexivity.
Qed.

Lemma gather_new_streams_run user_profile (threshold : Z) w :
  let new_streams :=
    filter (is_new_stream user_profile threshold)
      (Stream_objects (store w)) in
  gather_new_streams user_profile threshold w
  = (Ok (len new_streams,
         {| html := stream_link <$> new_streams;
            plain := stream_name <$> new_streams |}), w).
Proof.
  intros new_streams. unfold gather_new_streams.
  rewrite bind_run, evaluate_run. cbv zeta.
  rewrite stream_links_fold. reflexivity.
Qed.

Lemma objects_get_run {A} (P : A → Prop) `{∀ x, Decision (P x)}
    (objects : QuerySet A) w :
  objects_get P objects w
  = (match filter P (objects (store w)) with
     | [] => Raise DoesNotExist
     | [row] => Ok row
     | _ :: _ :: _ => Raise MultipleObjectsReturned
     end, w).
Proof.
  unfold objects_get, bind, evaluate, qs_filter.
  by destruct (filter P (objects (store w))) as [|? [|? ?]].
Qed.

(** The whole of [handle_digest_email], case by case. *)
Lemma handle_digest_email_run (user_profile_id : Z) (cutoff : PyValue) w :
  handle_digest_email user_profile_id cutoff w
  = match filter (λ user, up_id user = user_profile_id)
            (UserProfile_objects (store w)) with
    | [] => (Raise DoesNotExist, w)
    | [user_profile] =>
        match py_int cutoff with
        | Raise e => (Raise e, w)
        | Ok seconds =>
            match utcfromtimestamp seconds with
            | Raise e => (Raise e, w)
            | Ok instant =>
                render_and_send w user_profile
                  (digest_payload (store w) user_profile instant)
            end
        end
    | _ :: _ :: _ => (Raise MultipleObjectsReturned, w)
    end.
Proof.
  unfold handle_digest_email.
  rewrite bind_run, objects_get_run.
  destruct (filter _ (UserProfile_objects (store w)))
    as [|user_profile [|? ?]]; try reflexivity.
  rewrite bind_run. unfold lift at 1.
  destruct (py_int cutoff) as [seconds|e]; [|reflexivity].
  rewrite bind_run. unfold lift at 1.
  destruct (utcfromtimestamp seconds) as [instant|e]; [|reflexivity].
  rewrite bind_run, evaluate_run, bind_run, evaluate_run.
  rewrite bind_run, evaluate_run.
  rewrite bind_run, gather_hot_conversations_run.
  rewrite bind_run, gather_new_streams_run.
  rewrite bind_run, gather_new_users_run.
  rewrite bind_run. unfold render_and_send, loader_render_to_string at 1.
  fold text_template.
  destruct (render_to_string text_template _) as [text_content|e];
    [|reflexivity].
  rewrite bind_run. unfold loader_render_to_string at 1.
  fold html_template.
  destruct (render_to_string html_template _) as [html_content|e];
    [|reflexivity].
  change (enough_traffic _ _ _ _)
    with (gate (digest_payload (store w) user_profile instant)).
  by destruct (gate _).
Qed.

End Runs.

(** ** The selection of hot conversations *)

(** C1.  Whatever the stream messages, the keys picked by
    [gather_hot_conversations] are these: both rankings list every
    distinct conversation key once, the diversity ranking by number of
    distinct sender names and the length ranking by number of messages,
    largest first; the selection starts with the first two keys (or
    fewer, if there are fewer) of the diversity ranking and goes on with
    the keys of the length ranking, in its order, that are not among
    them, as many as it takes to have four; no key is picked twice; and
    the number of keys picked is min(4, number of distinct keys). *)
Theorem hot_conversations_selection {Py : PythonRuntime}
    (stream_messages : list UserMessage) :
  let by_diversity := (diversity_list stream_messages).*1 in
  let by_length := (length_list stream_messages).*1 in
  let seed := take 2 by_diversity in
  let selected := hot_conversations stream_messages in
  by_diversity ≡ₚ conversation_keys stream_messages
  ∧ StronglySorted
      (λ k1 k2, sender_count stream_messages k2
                  ≤ sender_count stream_messages k1) by_diversity
  ∧ by_length ≡ₚ conversation_keys stream_messages
  ∧ StronglySorted
      (λ k1 k2, message_count stream_messages k2
                  ≤ message_count stream_messages k1) by_length
  ∧ take 2 selected = seed
  ∧ drop 2 selected
    = take (4 - length seed) (filter (λ k, k ∉ seed) by_length)
  ∧ selected
    = seed ++ take (4 - length seed) (filter (λ k, k ∉ seed) by_length)
  ∧ NoDup selected
  ∧ length selected
    = (4 `min` length (conversation_keys stream_messages))%nat.
Proof.
  intros by_diversity by_length seed selected.
  assert (Heq : selected
    = seed ++ take (4 - length seed) (filter (λ k, k ∉ seed) by_length))
    by apply hot_conversations_eq.
  assert (Hrest : length seed = 2%nat
    ∨ take (4 - length seed) (filter (λ k, k ∉ seed) by_length) = []).
  { destruct (decide (length seed = 2%nat)) as [|Hshort]; [by left|right].
    assert (Hlen : (length by_diversity < 2)%nat).
    { subst seed. rewrite length_take in Hshort. lia. }
    assert (Hnil : filter (λ k, k ∉ seed) by_length ≡ₚ []).
    { subst seed by_length by_diversity.
      rewrite length_list_without_seed, drop_ge; [done|lia]. }
    apply Permutation_nil_r in Hnil. rewrite Hnil. apply take_nil. }
  split_and!.
  - apply diversity_list_keys.
  - apply diversity_list_sorted.
  - apply length_list_keys.
  - apply length_list_sorted.
  - rewrite Heq. destruct Hrest as [Hlen| ->].
    + by rewrite take_app_length'.
    + rewrite app_nil_r. subst seed. by rewrite take_take.
  - rewrite Heq. destruct Hrest as [Hlen| ->].
    + by rewrite drop_app_length'.
    + rewrite app_nil_r. subst seed. rewrite drop_ge; [done|].
      rewrite length_take. lia.
  - exact Heq.
  - apply hot_conversations_NoDup.
  - apply hot_conversations_length.
Qed.

(** C3.  When there is at least one stream message,
    [gather_hot_conversations] hands back a list of exactly one record,
    the one of the first selected key, however many keys were selected;
    the world is left as it was. *)
Theorem gather_hot_conversations_returns_first_only
    {Py : PythonRuntime} {Co : Collaborators} (user_profile : UserProfile)
    (stream_messages : QuerySet UserMessage) (w : World Block) :
  stream_messages (store w) ≠ [] →
  ∃ h rest,
    hot_conversations (stream_messages (store w)) = h :: rest
    ∧ (length (h :: rest)
       = 4 `min` length (conversation_keys (stream_messages (store w))))%nat
    ∧ gather_hot_conversations user_profile stream_messages w
      = (Ok (Some [teaser_of user_profile (stream_messages (store w)) h]), w).
Proof.
  intros Hne.
  pose proof (hot_conversations_nonempty _ Hne) as Hhot.
  pose proof (hot_conversations_length (stream_messages (store w))) as Hlen.
  rewrite gather_hot_conversations_run. unfold hot_conversation_payloads.
  destruct (hot_conversations (stream_messages (store w))) as [|h rest];
    [done|].
  by exists h, rest.
Qed.

(** C10.  The [count] of a teaser record is never negative: for every
    conversation key the loop body computes the number of messages of the
    conversation less the number of teaser messages, which are the first
    two, at most, of those same messages; so it is for every record that
    [gather_hot_conversations] hands back. *)
Theorem teaser_count_nonnegative {Py : PythonRuntime} {Co : Collaborators}
    (user_profile : UserProfile) (stream_messages : QuerySet UserMessage)
    (w : World Block) :
  let rows := stream_messages (store w) in
  (∀ h : key, ∃ teaser,
      teaser_data user_profile stream_messages (conversation_tables rows) h w
        = (Ok teaser, w)
      ∧ count teaser
        = message_count rows h - len (take 2 (messages_of rows h))
      ∧ len (take 2 (messages_of rows h)) ≤ 2
      ∧ 0 ≤ count teaser)
  ∧ ∃ payloads,
      gather_hot_conversations user_profile stream_messages w
        = (Ok payloads, w)
      ∧ Forall (λ teaser, 0 ≤ count teaser) (default [] payloads).
Proof.
  intros rows.
  assert (Hcount : ∀ h,
    0 ≤ message_count rows h - len (take 2 (messages_of rows h))
    ∧ len (take 2 (messages_of rows h)) ≤ 2).
  { intros h. unfold message_count, len. rewrite length_take. lia. }
  subst rows. split.
  - intros h.
    exists (teaser_of user_profile (stream_messages (store w)) h).
    rewrite teaser_data_run. destruct (Hcount h) as [Hpos Htwo].
    unfold teaser_of. simpl. unfold len in *. rewrite length_fmap.
    by split_and!.
  - exists (hot_conversation_payloads user_profile
              (stream_messages (store w))).
    rewrite gather_hot_conversations_run. split; [done|].
    unfold hot_conversation_payloads.
    destruct (hot_conversations (stream_messages (store w))) as [|h rest];
      simpl; [constructor|].
    repeat constructor. simpl. unfold len. rewrite length_fmap.
    apply Hcount.
Qed.

(** ** The gate *)

(** C4.  [enough_traffic] is true when there are unread private messages
    or hot conversations; failing that, it is true when there are new
    streams and new users; and false otherwise.  The four sample calls
    of the specification come out as it says. *)
Theorem enough_traffic_rule {A B C D} `{Truthy A, Truthy B, Truthy C, Truthy D}
    (unread_pms : A) (hot_conversations : B) (new_streams : C)
    (new_users : D) :
  (truthy unread_pms = true ∨ truthy hot_conversations = true →
     enough_traffic unread_pms hot_conversations new_streams new_users = true)
  ∧ (truthy unread_pms = false → truthy hot_conversations = false →
     truthy new_streams = true ∧ truthy new_users = true →
     enough_traffic unread_pms hot_conversations new_streams new_users = true)
  ∧ (truthy unread_pms = false → truthy hot_conversations = false →
     truthy new_streams = false ∨ truthy new_users = false →
     enough_traffic unread_pms hot_conversations new_streams new_users = false)
  ∧ enough_traffic unread_pms hot_conversations new_streams new_users
    = (truthy unread_pms || truthy hot_conversations)
      || (truthy new_streams && truthy new_users)
  ∧ (∀ (x : A) (l : list A),
       enough_traffic (x :: l) (@nil B) 0 0 = true)
  ∧ enough_traffic (@nil A) (@nil B) 3 2 = true
  ∧ enough_traffic (@nil A) (@nil B) 3 0 = false
  ∧ enough_traffic (@nil A) (@nil B) 0 0 = false.
Proof.
  unfold enough_traffic.
  destruct (truthy unread_pms), (truthy hot_conversations),
    (truthy new_streams), (truthy new_users); simpl;
    split_and!; try done; try (by intros [? | ?]);
    try (by intros ? ? [? ?]); try (by intros ? ? [? | ?]);
    intros; reflexivity.
Qed.

(** ** The frame: what the module leaves alone *)

Create HintDb frame discriminated.

Section Frame.

Context {Py : PythonRuntime} {Co : Collaborators}.

Lemma read_only_store_preserving {A} (m : M A) :
  read_only m → store_preserving m.
Proof.
  intros Hm w. rewrite (Hm w). split; [done|].
  exists nil. by rewrite app_nil_r.
Qed.

Lemma mret_read_only {A} (a : A) : read_only (mret a : M A).
Proof. intros w. reflexivity. Qed.

Lemma lift_read_only {A} (r : Result A) : read_only (lift r).
Proof. intros w. reflexivity. Qed.

Lemma evaluate_read_only {A} (qs : QuerySet A) : read_only (evaluate qs).
Proof. intros w. reflexivity. Qed.

Lemma bind_read_only {A B} (m : M A) (k : A → M B) :
  read_only m → (∀ a, read_only (k a)) → read_only (m ≫= k).
Proof.
  intros Hm Hk w. rewrite bind_run. specialize (Hm w).
  destruct (m w) as [[a|e] w']; simpl in Hm; subst w'; [apply Hk|done].
Qed.

Lemma bind_store_preserving {A B} (m : M A) (k : A → M B) :
  store_preserving m → (∀ a, store_preserving (k a)) →
  store_preserving (m ≫= k).
Proof.
  intros Hm Hk w. rewrite bind_run.
  destruct (Hm w) as [Hstore [new_calls Hcalls]].
  destruct (m w) as [[a|e] w']; simpl in *.
  - destruct (Hk a w') as [Hstore' [new_calls' Hcalls']].
    split; [congruence|].
    exists (new_calls ++ new_calls').
    by rewrite Hcalls', Hcalls, app_assoc.
  - split; [done|]. by exists new_calls.
Qed.

Lemma objects_get_read_only {A} (P : A → Prop) `{∀ x, Decision (P x)}
    (objects : QuerySet A) : read_only (objects_get P objects).
Proof. intros w. by rewrite objects_get_run. Qed.

Lemma for_each_read_only {A S R} (l : list A)
    (body : A → S → M (Control S R)) (s : S) :
  (∀ x s, read_only (body x s)) → read_only (for_each l body s).
Proof.
  intros Hbody. revert s. induction l as [|x l IH]; intros s w; [done|].
  rewrite for_each_cons. specialize (Hbody x s w).
  destruct (body x s w) as [[[s'|s'|r]|e] w']; simpl in Hbody; subst w';
    try done.
  apply IH.
Qed.

Lemma loader_render_to_string_store_preserving (template : string)
    (payload : TemplatePayload Block) :
  store_preserving (loader_render_to_string template payload).
Proof. intros w. split; [done|]. by eexists. Qed.

Lemma send_future_email_store_preserving recipients html_content
    text_content subject delay sender tags :
  store_preserving
    (send_future_email recipients html_content text_content subject
       delay sender tags).
Proof. intros w. split; [done|]. by eexists. Qed.

#[local] Hint Resolve mret_read_only lift_read_only evaluate_read_only
  objects_get_read_only read_only_store_preserving
  loader_render_to_string_store_preserving
  send_future_email_store_preserving : frame.

(** Walk down a computation, one bind at a time. *)
Ltac frame :=
  repeat first
    [ solve [auto with frame]
    | apply bind_read_only; [|intros ?]
    | apply bind_store_preserving; [|intros ?]
    | apply for_each_read_only; intros ? ?
    | match goal with
      | |- context [let '(_, _) := ?x in _] => destruct x
      | |- context [match ?c with Next _ => _ | Break _ => _
                                  | Return _ => _ end] => destruct c
      | |- context [if ?b then _ else _] => destruct b
      end ].

Lemma teaser_data_read_only user_profile
    (stream_messages : QuerySet UserMessage) tables (h : key) :
  read_only (teaser_data user_profile stream_messages tables h).
Proof. unfold teaser_data. frame. Qed.

Lemma gather_hot_conversations_read_only user_profile
    (stream_messages : QuerySet UserMessage) :
  read_only (gather_hot_conversations user_profile stream_messages).
Proof.
  unfold gather_hot_conversations.
  pose proof teaser_data_read_only. frame.
Qed.

Lemma gather_new_users_read_only user_profile (threshold : Z) :
  read_only (gather_new_users user_profile threshold).
Proof. unfold gather_new_users. frame. Qed.

Lemma gather_new_streams_read_only user_profile (threshold : Z) :
  read_only (gather_new_streams user_profile threshold).
Proof. unfold gather_new_streams. frame. Qed.

Lemma handle_digest_email_store_preserving (user_profile_id : Z)
    (cutoff : PyValue) :
  store_preserving (handle_digest_email user_profile_id cutoff).
Proof.
  pose proof gather_hot_conversations_read_only.
  pose proof gather_new_users_read_only.
  pose proof gather_new_streams_read_only.
  unfold handle_digest_email. frame.
Qed.

End Frame.

(** ** The gatherers *)

(** C5.  Whatever the store, the user and the cutoff, [gather_new_users]
    counts and names users of the store that are not bots, belong to the
    realm of the given user and joined strictly after the cutoff, and
    [gather_new_streams] counts and links streams of the store that
    belong to that realm and were created strictly after the cutoff; no
    user or stream dated at or before the cutoff, or of another realm, is
    among them.  Neither changes the world. *)
Theorem gatherers_report_only_new {Co : Collaborators}
    (user_profile : UserProfile) (threshold : Z) (w : World Block) :
  (∃ new_users : list UserProfile,
     gather_new_users user_profile threshold w
       = (Ok (len new_users, up_full_name <$> new_users), w)
     ∧ Forall (λ user,
          user ∈ UserProfile_objects (store w)
          ∧ up_is_bot user = false
          ∧ up_realm user = up_realm user_profile
          ∧ threshold < up_date_joined user) new_users
     ∧ ∀ user,
         up_date_joined user ≤ threshold
         ∨ up_realm user ≠ up_realm user_profile
         ∨ up_is_bot user = true →
         user ∉ new_users)
  ∧ (∃ new_streams : list Stream,
       gather_new_streams user_profile threshold w
         = (Ok (len new_streams,
                {| html := stream_link <$> new_streams;
                   plain := stream_name <$> new_streams |}), w)
       ∧ Forall (λ stream,
            stream ∈ Stream_objects (store w)
            ∧ stream_realm stream = up_realm user_profile
            ∧ threshold < stream_date_created stream) new_streams
       ∧ ∀ stream,
           stream_date_created stream ≤ threshold
           ∨ stream_realm stream ≠ up_realm user_profile →
           stream ∉ new_streams).
Proof.
  split.
  - exists (filter (is_new_user user_profile threshold)
              (UserProfile_objects (store w))).
    rewrite gather_new_users_run. cbv zeta. unfold len.
    rewrite length_fmap. split_and!; [done| |].
    + apply Forall_forall. intros user Hin.
      apply list_elem_of_filter in Hin as [(Hrealm & Hdate & Hbot) Hin].
      split_and!; [done..|lia].
    + intros user Hold Hin.
      apply list_elem_of_filter in Hin as [(Hrealm & Hdate & Hbot) Hin].
      destruct Hold as [?|[?|?]]; [lia|done|congruence].
  - exists (filter (is_new_stream user_profile threshold)
              (Stream_objects (store w))).
    rewrite gather_new_streams_run. split_and!; [done| |].
    + apply Forall_forall. intros stream Hin.
      apply list_elem_of_filter in Hin as [(Hrealm & Hdate) Hin].
      split_and!; [done..|lia].
    + intros stream Hold Hin.
      apply list_elem_of_filter in Hin as [(Hrealm & Hdate) Hin].
      destruct Hold as [?|?]; [lia|done].
Qed.

(** ** The orchestrator *)

(** C6.  When the user resolves and the cutoff converts, the payload
    that [handle_digest_email] hands to the templates carries
    [remaining_unread_pms_count = min(0, total - 4)], where [total] is the
    number of the user's direct messages in the window; so the field is
    never positive, however many direct messages there are. *)
Theorem remaining_unread_pms_count_never_positive
    {Py : PythonRuntime} {Co : Collaborators}
    (user_profile_id : Z) (cutoff : PyValue)
    (w : World Block) (user_profile : UserProfile) (seconds instant : Z) :
  resolves_to (store w) user_profile_id user_profile →
  py_int cutoff = Ok seconds →
  utcfromtimestamp seconds = Ok instant →
  let total := len (direct_messages (store w) user_profile instant) in
  ∃ payload later_calls,
    calls (handle_digest_email user_profile_id cutoff w).2
      = calls w ++ render_to_string_call text_template payload :: later_calls
    ∧ Forall (λ call,
         match call with
         | render_to_string_call _ payload' => payload' = payload
         | send_future_email_call _ => True
         end) later_calls
    ∧ tp_remaining_unread_pms_count payload = 0 `min` (total - 4)
    ∧ tp_remaining_unread_pms_count payload ≤ 0.
Proof.
  intros Huser Hint Hutc total.
  exists (digest_payload (store w) user_profile instant).
  rewrite handle_digest_email_run. unfold resolves_to in Huser.
  rewrite Huser, Hint, Hutc. unfold render_and_send.
  destruct (render_to_string text_template _) as [text_content|e].
  2: { exists []. simpl. split_and!; [done|constructor|done|lia]. }
  destruct (render_to_string html_template _) as [html_content|e].
  2: { eexists [_]. simpl. rewrite <-app_assoc.
       split_and!; [done|by repeat constructor|done|lia]. }
  destruct (gate _).
  - eexists [_; _]. simpl. rewrite <-!app_assoc.
    split_and!; [done|by repeat constructor|done|lia].
  - eexists [_]. simpl. rewrite <-app_assoc.
    split_and!; [done|by repeat constructor|done|lia].
Qed.

(** C7.  When the user resolves, the cutoff converts and both templates
    render, [handle_digest_email] renders the payload twice and then
    calls [send_future_email] exactly when [enough_traffic] is true of the
    payload's unread messages, hot conversations, count of new streams
    and count of new users; the call carries the rendered contents, a
    zero delay, the fixed sender, the fixed subject and the digest tag.
    When the gate fails nothing is sent and nothing else is done: so it
    is when there are no direct messages, no visible stream messages, no
    new streams and no new users in the window. *)
Theorem digest_sent_iff_enough_traffic
    {Py : PythonRuntime} {Co : Collaborators}
    (user_profile_id : Z) (cutoff : PyValue)
    (w : World Block) (user_profile : UserProfile) (seconds instant : Z)
    (text_content html_content : string) :
  resolves_to (store w) user_profile_id user_profile →
  py_int cutoff = Ok seconds →
  utcfromtimestamp seconds = Ok instant →
  let payload := digest_payload (store w) user_profile instant in
  render_to_string text_template payload = Ok text_content →
  render_to_string html_template payload = Ok html_content →
  let outcome := handle_digest_email user_profile_id cutoff w in
  let email := digest_email user_profile html_content text_content in
  let new_calls := drop (length (calls w)) (calls outcome.2) in
  outcome.1 = Ok ()
  ∧ store outcome.2 = store w
  ∧ calls outcome.2 = calls w ++ new_calls
  ∧ new_calls
    = [render_to_string_call text_template payload;
       render_to_string_call html_template payload]
      ++ (if enough_traffic (tp_unread_pms payload)
               (tp_hot_conversations payload)
               (tp_new_streams_count payload) (len (tp_new_users payload))
          then [send_future_email_call email] else [])
  ∧ ((∃ sent, send_future_email_call sent ∈ new_calls)
     ↔ enough_traffic (tp_unread_pms payload) (tp_hot_conversations payload)
         (tp_new_streams_count payload) (len (tp_new_users payload)) = true)
  ∧ email_delay email = 0
  ∧ email_sender email
    = {| addr_email := "support@zulip.com"; addr_name := "Zulip Support" |}
  ∧ email_subject email = "While you've been gone: the Zulip Digest"%string
  ∧ email_tags email = ["digest-emails"%string]
  ∧ email_recipients email
    = [{| addr_email := up_email user_profile;
          addr_name := up_full_name user_profile |}]
  ∧ (direct_messages (store w) user_profile instant = [] →
     visible_stream_messages (store w) user_profile instant = [] →
     filter (is_new_stream user_profile instant) (Stream_objects (store w))
       = [] →
     filter (is_new_user user_profile instant)
       (UserProfile_objects (store w)) = [] →
     build_message_list user_profile [] = [] →
     new_calls
     = [render_to_string_call text_template payload;
        render_to_string_call html_template payload]).
Proof.
  intros Huser Hint Hutc payload Htext Hhtml outcome email new_calls.
  assert (Hrun : outcome
    = if gate payload
      then (Ok (),
            logged (logged (logged w
              (render_to_string_call text_template payload))
              (render_to_string_call html_template payload))
              (send_future_email_call email))
      else (Ok (),
            logged (logged w
              (render_to_string_call text_template payload))
              (render_to_string_call html_template payload))).
  { subst outcome. rewrite handle_digest_email_run.
    unfold resolves_to in Huser. rewrite Huser, Hint, Hutc.
    unfold render_and_send. fold payload. by rewrite Htext, Hhtml. }
  assert (Hnew : new_calls
    = [render_to_string_call text_template payload;
       render_to_string_call html_template payload]
      ++ (if gate payload then [send_future_email_call email] else [])).
  { subst new_calls. rewrite Hrun.
    destruct (gate payload); simpl; rewrite <-!app_assoc;
      by rewrite drop_app_length. }
  assert (Hgate : enough_traffic (tp_unread_pms payload)
    (tp_hot_conversations payload) (tp_new_streams_count payload)
    (len (tp_new_users payload)) = gate payload) by done.
  rewrite Hgate.
  split_and!; try done.
  - rewrite Hrun. by destruct (gate payload).
  - rewrite Hrun. by destruct (gate payload).
  - rewrite Hnew, Hrun.
    destruct (gate payload); simpl; by rewrite <-!app_assoc.
  - rewrite Hnew. destruct (gate payload); simpl.
    + split; [done|]. intros _. exists email. set_solver.
    + split; [|done]. intros [sent Hsent]. set_solver.
  - intros Hpms Hstreams Hnew_streams Hnew_users Hblank.
    rewrite Hnew. replace (gate payload) with false; [done|].
    subst payload. unfold gate, digest_payload. simpl.
    rewrite Hpms, Hstreams, Hnew_streams, Hnew_users. simpl.
    unfold hot_conversation_payloads.
    by rewrite Hblank, hot_conversations_nil.
Qed.






(** C9.  No operation of the module writes to the store.  After
    [handle_digest_email] the store is what it was and the log of
    collaborator calls has only grown; [gather_hot_conversations],
    [gather_new_users] and [gather_new_streams] leave the whole world
    as it was, whatever they are given.  ([enough_traffic] is a function
    of its four arguments alone.) *)
Theorem digest_module_is_read_only
    {Py : PythonRuntime} {Co : Collaborators}
    (user_profile_id : Z) (cutoff : PyValue)
    (user_profile : UserProfile) (stream_messages : QuerySet UserMessage)
    (threshold : Z) (w : World Block) :
  store (handle_digest_email user_profile_id cutoff w).2 = store w
  ∧ (∃ new_calls,
       calls (handle_digest_email user_profile_id cutoff w).2
       = calls w ++ new_calls)
  ∧ (gather_hot_conversations user_profile stream_messages w).2 = w
  ∧ (gather_new_users user_profile threshold w).2 = w
  ∧ (gather_new_streams user_profile threshold w).2 = w.
Proof.
  destruct (handle_digest_email_store_preserving user_profile_id cutoff w)
    as [Hstore Hcalls].
  split_and!; [done|done|..].
  - apply gather_hot_conversations_read_only.
  - apply gather_new_users_read_only.
  - apply gather_new_streams_read_only.
Qed.

(** ** The sample realm, run *)

(** C2.  On the sample stream traffic there are two conversations and
    both are selected, yet [gather_hot_conversations] hands back one
    record; and on no traffic at all it hands back [None], not an empty
    list. *)
Example gather_hot_conversations_reports_one_of_two :
  length (conversation_keys (Sample.stream_messages Sample.realm)) = 2%nat
  ∧ hot_conversations (Py := Sample.runtime)
      (Sample.stream_messages Sample.realm)
    = [(7, "dinner"%string); (7, "lunch"%string)]
  ∧ gather_hot_conversations
      (Py := Sample.runtime) (Co := Sample.collaborators)
      Sample.alice Sample.stream_messages Sample.world
    = (Ok (Some [{| participants := ["carol"%string; "bob"%string];
                    count := 0;
                    first_few_messages := ["hello"%string; "hello"%string] |}]),
       Sample.world)
  ∧ gather_hot_conversations
      (Py := Sample.runtime) (Co := Sample.collaborators)
      Sample.alice Sample.stream_messages Sample.quiet_world
    = (Ok None, Sample.quiet_world).
Proof. split_and!; vm_compute; reflexivity. Qed.

(** In the quiet realm the digest is rendered and not sent; alice, bob
    and the stream, all dated exactly at the cutoff, do not count as
    new. *)
Example quiet_realm_sends_nothing :
  let outcome :=
    handle_digest_email (Py := Sample.runtime) (Co := Sample.collaborators)
      1 (PyStr "0") Sample.quiet_world in
  outcome.1 = Ok ()
  ∧ store outcome.2 = Sample.quiet_realm
  ∧ ∃ payload,
      calls outcome.2
      = [render_to_string_call text_template payload;
         render_to_string_call html_template payload]
      ∧ tp_unread_pms payload = []
      ∧ tp_hot_conversations payload = None
      ∧ tp_new_streams_count payload = 0
      ∧ tp_new_users payload = [].
Proof. vm_compute. split_and!; try done. by eexists. Qed.

(** A user who joined exactly at the threshold is not reported. *)
Example newcomer_at_threshold_excluded :
  gather_new_users (Co := Sample.collaborators) Sample.alice 5000000
    Sample.world
  = (Ok (0, []), Sample.world)
  ∧ gather_new_users (Co := Sample.collaborators) Sample.alice 4999999
      Sample.world
    = (Ok (1, ["carol"%string]), Sample.world).
Proof. split; vm_compute; reflexivity. Qed.

Lemma gather_hot_conversations_returns_first_only_witness :
  Sample.stream_messages (store Sample.world) ≠ []
  ∧ ∃ h rest,
      hot_conversations (Py := Sample.runtime)
        (Sample.stream_messages (store Sample.world)) = h :: rest
      ∧ (length (h :: rest)
         = 4 `min` length (conversation_keys
                             (Sample.stream_messages (store Sample.world))))%nat
      ∧ gather_hot_conversations (Py := Sample.runtime)
          (Co := Sample.collaborators)
          Sample.alice Sample.stream_messages Sample.world
        = (Ok (Some [teaser_of (Co := Sample.collaborators) Sample.alice
                       (Sample.stream_messages (store Sample.world)) h]),
           Sample.world).
Proof.
  assert (Hne : Sample.stream_messages (store Sample.world) ≠ [])
    by (vm_compute; discriminate).
  split; [exact Hne|].
  exact (gather_hot_conversations_returns_first_only
           (Py := Sample.runtime) (Co := Sample.collaborators)
           Sample.alice Sample.stream_messages Sample.world Hne).
Defined.

Lemma remaining_unread_pms_count_never_positive_witness :
  resolves_to (Sample.realm) 1 Sample.alice
  ∧ py_int (Py := Sample.runtime) (PyStr "0") = Ok 0
  ∧ utcfromtimestamp (PythonRuntime := Sample.runtime) 0 = Ok 0
  ∧ len (direct_messages (Co := Sample.collaborators)
           Sample.realm Sample.alice 0) = 6
  ∧ ∃ payload later_calls,
      calls (handle_digest_email (Py := Sample.runtime)
               (Co := Sample.collaborators) 1 (PyStr "0") Sample.world).2
      = calls Sample.world
          ++ render_to_string_call text_template payload :: later_calls
      ∧ Forall (λ call,
           match call with
           | render_to_string_call _ payload' => payload' = payload
           | send_future_email_call _ => True
           end) later_calls
      ∧ tp_remaining_unread_pms_count payload
        = 0 `min` (len (direct_messages (Co := Sample.collaborators)
                          Sample.realm Sample.alice 0) - 4)
      ∧ tp_remaining_unread_pms_count payload ≤ 0.
Proof.
  split_and!; [reflexivity..|].
  apply (remaining_unread_pms_count_never_positive
           (Py := Sample.runtime) (Co := Sample.collaborators)
           1 (PyStr "0") Sample.world Sample.alice 0 0); reflexivity.
Defined.

Lemma digest_sent_iff_enough_traffic_witness :
  let payload :=
    digest_payload (Py := Sample.runtime) (Co := Sample.collaborators)
      Sample.realm Sample.alice 0 in
  let outcome :=
    handle_digest_email (Py := Sample.runtime) (Co := Sample.collaborators)
      1 (PyStr "0") Sample.world in
  let email :=
    digest_email Sample.alice html_template text_template in
  let new_calls := drop (length (calls Sample.world)) (calls outcome.2) in
  resolves_to Sample.realm 1 Sample.alice
  ∧ py_int (Py := Sample.runtime) (PyStr "0") = Ok 0
  ∧ utcfromtimestamp (PythonRuntime := Sample.runtime) 0 = Ok 0
  ∧ render_to_string (Collaborators := Sample.collaborators)
      text_template payload = Ok text_template
  ∧ render_to_string (Collaborators := Sample.collaborators)
      html_template payload = Ok html_template
  ∧ outcome.1 = Ok ()
  ∧ new_calls
    = [render_to_string_call text_template payload;
       render_to_string_call html_template payload;
       send_future_email_call email]
  ∧ ((∃ sent, send_future_email_call sent ∈ new_calls)
     ↔ enough_traffic (tp_unread_pms payload) (tp_hot_conversations payload)
         (tp_new_streams_count payload) (len (tp_new_users payload)) = true).
Proof.
  intros payload outcome email new_calls.
  destruct (digest_sent_iff_enough_traffic
              (Py := Sample.runtime) (Co := Sample.collaborators)
              1 (PyStr "0") Sample.world Sample.alice 0 0
              text_template html_template
              eq_refl eq_refl eq_refl eq_refl eq_refl)
    as (Hok & _ & _ & Hnew & Hiff & _).
  split_and!;
    [reflexivity..|exact Hok|exact Hnew|exact Hiff].
Defined.



(** ** More on the selection *)

Section SelectionFacts.

Context {Py : PythonRuntime}.
Implicit Types (stream_messages : list UserMessage) (k : key).

Lemma StronglySorted_sublist {A} (R : relation A) (k l : list A) :
  k `sublist_of` l → StronglySorted R l → StronglySorted R k.
Proof.
  intros Hsub Hl. revert k Hsub.
  induction Hl as [|x l Hl IH Hx]; intros k Hsub.
  - apply sublist_nil_r in Hsub as ->. constructor.
  - apply sublist_cons_r in Hsub as [Hsub|(k' & -> & Hsub)]; [by apply IH|].
    constructor; [by apply IH|].
    apply Forall_forall. intros y Hy. rewrite Forall_forall in Hx.
    apply Hx. by eapply elem_of_sublist.
Qed.

Lemma hot_conversations_subset stream_messages k :
  k ∈ hot_conversations stream_messages →
  k ∈ conversation_keys stream_messages.
Proof.
  rewrite hot_conversations_eq. cbv zeta. rewrite elem_of_app.
  intros [Hk|Hk].
  - rewrite <-diversity_list_keys.
    eapply elem_of_sublist; [exact Hk|apply sublist_take].
  - rewrite <-length_list_keys.
    eapply elem_of_sublist in Hk; [|apply sublist_take].
    by apply list_elem_of_filter in Hk as [_ Hk].
Qed.

Lemma hot_conversations_head stream_messages h rest :
  hot_conversations stream_messages = h :: rest →
  ∃ others, (diversity_list stream_messages).*1 = h :: others.
Proof.
  rewrite hot_conversations_eq. cbv zeta.
  pose proof (length_list_without_seed stream_messages) as Hfill.
  destruct ((diversity_list stream_messages).*1) as [|k others] eqn:Hd.
  - rewrite drop_nil in Hfill. apply Permutation_nil_r in Hfill.
    rewrite Hfill. by rewrite take_nil.
  - simpl. intros [= -> _]. by eexists.
Qed.

End SelectionFacts.

(** X1.  [gather_hot_conversations] hands back [None] exactly when the
    query yields no stream message; on any other input it hands back a
    list of one record. *)
Theorem gather_hot_conversations_none_iff_no_messages
    {Py : PythonRuntime} {Co : Collaborators} (user_profile : UserProfile)
    (stream_messages : QuerySet UserMessage) (w : World Block) :
  ((gather_hot_conversations user_profile stream_messages w).1 = Ok None
   ↔ stream_messages (store w) = [])
  ∧ ((∃ teaser,
        (gather_hot_conversations user_profile stream_messages w).1
        = Ok (Some [teaser]))
     ↔ stream_messages (store w) ≠ []).
Proof.
  rewrite gather_hot_conversations_run. unfold hot_conversation_payloads.
  simpl.
  destruct (stream_messages (store w)) as [|um rows] eqn:Hrows.
  - rewrite hot_conversations_nil. split; [done|].
    split; [by intros [? ?]|done].
  - pose proof (hot_conversations_nonempty (um :: rows)) as Hne.
    destruct (hot_conversations (um :: rows)) as [|h rest];
      [by destruct Hne|].
    split; [done|]. split; [done|]. intros _. by eexists.
Qed.

(** X2.  Every key that [gather_hot_conversations] selects is the key of
    some input message; and when the input has at most four distinct
    conversations, every one of them is selected. *)
Theorem hot_conversations_covers_small_inputs {Py : PythonRuntime}
    (stream_messages : list UserMessage) :
  (∀ k, k ∈ hot_conversations stream_messages →
        ∃ user_message, user_message ∈ stream_messages
                        ∧ conversation_key user_message = k)
  ∧ ((length (conversation_keys stream_messages) ≤ 4)%nat →
     hot_conversations stream_messages ≡ₚ conversation_keys stream_messages).
Proof.
  split.
  - intros k Hk. apply hot_conversations_subset in Hk.
    apply elem_of_conversation_keys, list_elem_of_fmap in Hk
      as (user_message & -> & Hin).
    by exists user_message.
  - intros Hfew. apply submseteq_length_Permutation.
    + apply NoDup_submseteq; [apply hot_conversations_NoDup|].
      apply hot_conversations_subset.
    + rewrite hot_conversations_length. lia.
Qed.

Lemma hot_conversations_covers_small_inputs_witness :
  (length (conversation_keys Sample.stream_traffic) ≤ 4)%nat
  ∧ hot_conversations (Py := Sample.runtime) Sample.stream_traffic
    ≡ₚ conversation_keys Sample.stream_traffic.
Proof.
  assert (Hfew : (length (conversation_keys Sample.stream_traffic) ≤ 4)%nat)
    by (vm_compute; lia).
  split; [exact Hfew|].
  exact (proj2 (hot_conversations_covers_small_inputs
                  (Py := Sample.runtime) Sample.stream_traffic) Hfew).
Defined.

(** X3.  The first selected key, the one whose record
    [gather_hot_conversations] hands back, belongs to a conversation
    with the largest number of distinct senders: no conversation of the
    input has more. *)
Theorem reported_conversation_is_most_diverse
    {Py : PythonRuntime} {Co : Collaborators} (user_profile : UserProfile)
    (stream_messages : QuerySet UserMessage) (w : World Block)
    (h : key) (rest : list key) :
  hot_conversations (stream_messages (store w)) = h :: rest →
  gather_hot_conversations user_profile stream_messages w
    = (Ok (Some [teaser_of user_profile (stream_messages (store w)) h]), w)
  ∧ ∀ user_message, user_message ∈ stream_messages (store w) →
      sender_count (stream_messages (store w))
        (conversation_key user_message)
      ≤ sender_count (stream_messages (store w)) h.
Proof.
  intros Hhot. split.
  - rewrite gather_hot_conversations_run. unfold hot_conversation_payloads.
    by rewrite Hhot.
  - intros user_message Hin.
    destruct (hot_conversations_head _ _ _ Hhot) as [others Hd].
    pose proof (diversity_list_sorted (stream_messages (store w))) as Hs.
    assert (Hk : conversation_key user_message
                 ∈ (diversity_list (stream_messages (store w))).*1).
    { rewrite diversity_list_keys. apply elem_of_conversation_keys.
      by apply list_elem_of_fmap_2. }
    rewrite Hd in Hs, Hk. apply StronglySorted_cons in Hs as [Hall _].
    apply elem_of_cons in Hk as [->|Hk]; [done|].
    rewrite Forall_forall in Hall. by apply Hall.
Qed.

Lemma reported_conversation_is_most_diverse_witness :
  hot_conversations (Py := Sample.runtime)
    (Sample.stream_messages (store Sample.world))
    = [(7, "dinner"%string); (7, "lunch"%string)]
  ∧ ∀ user_message,
      user_message ∈ Sample.stream_messages (store Sample.world) →
      sender_count (Sample.stream_messages (store Sample.world))
        (conversation_key user_message)
      ≤ sender_count (Sample.stream_messages (store Sample.world))
          (7, "dinner"%string).
Proof.
  assert (Hhot : hot_conversations (Py := Sample.runtime)
                   (Sample.stream_messages (store Sample.world))
                 = [(7, "dinner"%string); (7, "lunch"%string)])
    by (vm_compute; reflexivity).
  split; [exact Hhot|].
  exact (proj2 (reported_conversation_is_most_diverse
                  (Py := Sample.runtime) (Co := Sample.collaborators)
                  Sample.alice Sample.stream_messages Sample.world
                  _ _ Hhot)).
Defined.

(** X4.  The keys taken from the length list are the longest of what the
    seed left: a conversation that was not selected has no more messages
    than any key selected after the first two. *)
Theorem fill_prefers_longer_conversations {Py : PythonRuntime}
    (stream_messages : list UserMessage) (k k' : key) :
  k ∈ drop 2 (hot_conversations stream_messages) →
  k' ∈ conversation_keys stream_messages →
  k' ∉ hot_conversations stream_messages →
  message_count stream_messages k' ≤ message_count stream_messages k.
Proof.
  rewrite hot_conversations_eq. cbv zeta.
  set (seed := take 2 (diversity_list stream_messages).*1).
  set (rest := filter (λ k, k ∉ seed) (length_list stream_messages).*1).
  set (room := (4 - length seed)%nat).
  intros Hk Hkey Hout.
  assert (Hfill : k ∈ take room rest).
  { rewrite drop_app in Hk. rewrite drop_ge in Hk.
    - eapply elem_of_sublist; [exact Hk|apply sublist_drop].
    - subst seed. rewrite length_take. lia. }
  rewrite elem_of_app in Hout.
  assert (Hrest : k' ∈ drop room rest).
  { assert (Hin : k' ∈ rest).
    { subst rest. apply list_elem_of_filter. split; [tauto|].
      by rewrite length_list_keys. }
    rewrite <-(take_drop room rest), elem_of_app in Hin. tauto. }
  assert (Hsorted : StronglySorted
    (λ k1 k2, message_count stream_messages k2
                ≤ message_count stream_messages k1) rest).
  { eapply StronglySorted_sublist; [apply sublist_filter|].
    apply length_list_sorted. }
  rewrite <-(take_drop room rest) in Hsorted.
  by apply (StronglySorted_app_1_elem_of _ _ _ _ _ Hsorted).
Qed.

(** X5.  When no two conversations have the same number of distinct
    senders and no two have the same number of messages, the selection
    does not depend on the order in which the dictionaries list their
    entries, and neither does what [gather_hot_conversations] returns. *)
Theorem selection_independent_of_dict_order_without_ties
    (Py1 Py2 : PythonRuntime) {Co : Collaborators}
    (user_profile : UserProfile) (stream_messages : QuerySet UserMessage)
    (w : World Block) :
  let rows := stream_messages (store w) in
  (∀ k1 k2, k1 ∈ conversation_keys rows → k2 ∈ conversation_keys rows →
            sender_count rows k1 = sender_count rows k2 → k1 = k2) →
  (∀ k1 k2, k1 ∈ conversation_keys rows → k2 ∈ conversation_keys rows →
            message_count rows k1 = message_count rows k2 → k1 = k2) →
  hot_conversations (Py := Py1) rows = hot_conversations (Py := Py2) rows
  ∧ gather_hot_conversations (Py := Py1) user_profile stream_messages w
    = gather_hot_conversations (Py := Py2) user_profile stream_messages w.
Proof.
  intros rows Hdiv Hlen.
  assert (Hd : (diversity_list (Py := Py1) rows).*1
               = (diversity_list (Py := Py2) rows).*1).
  { eapply StronglySorted_unique_strong;
      [|apply diversity_list_sorted..|by rewrite !diversity_list_keys].
    intros k1 k2 H1 H2 H12 H21. simpl in *.
    rewrite diversity_list_keys in H1. rewrite diversity_list_keys in H2.
    apply Hdiv; [done..|lia]. }
  assert (Hl : (length_list (Py := Py1) rows).*1
               = (length_list (Py := Py2) rows).*1).
  { eapply StronglySorted_unique_strong;
      [|apply length_list_sorted..|by rewrite !length_list_keys].
    intros k1 k2 H1 H2 H12 H21. simpl in *.
    rewrite length_list_keys in H1. rewrite length_list_keys in H2.
    apply Hlen; [done..|lia]. }
  assert (Hhot : hot_conversations (Py := Py1) rows
                 = hot_conversations (Py := Py2) rows).
  { rewrite !hot_conversations_eq. cbv zeta. by rewrite Hd, Hl. }
  split; [done|].
  rewrite !gather_hot_conversations_run. unfold hot_conversation_payloads.
  fold rows. by rewrite Hhot.
Qed.

Lemma fill_prefers_longer_conversations_witness :
  hot_conversations (Py := Sample.runtime) Sample.busy_traffic
    = [(7, "b"); (7, "a"); (7, "c"); (7, "d")]
  ∧ (7, "f"%string) ∈ conversation_keys Sample.busy_traffic
  ∧ message_count Sample.busy_traffic (7, "f"%string)
    ≤ message_count Sample.busy_traffic (7, "d"%string).
Proof.
  split_and!.
  - vm_compute. reflexivity.
  - apply (bool_decide_unpack _). vm_compute. exact I.
  - apply (fill_prefers_longer_conversations (Py := Sample.runtime)
             Sample.busy_traffic (7, "d"%string) (7, "f"%string));
      apply (bool_decide_unpack _); vm_compute; exact I.
Defined.

Lemma selection_independent_of_dict_order_without_ties_witness :
  hot_conversations (Py := Sample.runtime)
    (Sample.stream_messages (store Sample.world))
  = hot_conversations (Py := Sample.reversed_runtime)
      (Sample.stream_messages (store Sample.world))
  ∧ gather_hot_conversations (Py := Sample.runtime)
      (Co := Sample.collaborators)
      Sample.alice Sample.stream_messages Sample.world
    = gather_hot_conversations (Py := Sample.reversed_runtime)
        (Co := Sample.collaborators)
        Sample.alice Sample.stream_messages Sample.world.
Proof.
  assert (Hkeys :
    conversation_keys (Sample.stream_messages (store Sample.world))
    = [(7, "lunch"%string); (7, "dinner"%string)])
    by (vm_compute; reflexivity).
  apply (selection_independent_of_dict_order_without_ties
           Sample.runtime Sample.reversed_runtime
           (Co := Sample.collaborators)
           Sample.alice Sample.stream_messages Sample.world);
    rewrite Hkeys; intros k1 k2 H1 H2 Heq;
    rewrite !elem_of_cons, elem_of_nil in H1;
    rewrite !elem_of_cons, elem_of_nil in H2;
    destruct H1 as [->|[->|[]]], H2 as [->|[->|[]]];
    first [reflexivity | vm_compute in Heq; discriminate Heq].
Defined.

(** ** The teaser records *)

(** X6.  For every conversation key, the record built by the payload
    loop shows the first two messages of the conversation, or all of
    them when there are fewer, and counts the rest: with [n] messages in
    the conversation, [count] is [max(0, n - 2)]. *)
Theorem teaser_shows_first_two_and_counts_the_rest
    {Py : PythonRuntime} {Co : Collaborators}
    (user_profile : UserProfile) (stream_messages : QuerySet UserMessage)
    (w : World Block) (h : key) :
  let rows := stream_messages (store w) in
  ∃ teaser shown,
    teaser_data user_profile stream_messages (conversation_tables rows) h w
      = (Ok teaser, w)
    ∧ first_few_messages teaser
      = build_message_list user_profile (um_message <$> shown)
    ∧ shown = take 2 (messages_of rows h)
    ∧ Forall (λ user_message,
         user_message ∈ rows ∧ conversation_key user_message = h) shown
    ∧ len shown = 2 `min` message_count rows h
    ∧ count teaser = 0 `max` (message_count rows h - 2)
    ∧ count teaser + len shown = message_count rows h.
Proof.
  intros rows. subst rows.
  exists (teaser_of user_profile (stream_messages (store w)) h),
    (take 2 (messages_of (stream_messages (store w)) h)).
  rewrite teaser_data_run. unfold teaser_of, message_count. simpl.
  unfold len. rewrite length_fmap, length_take.
  split_and!; try done; try lia.
  apply Forall_forall. intros user_message Hin.
  eapply elem_of_sublist in Hin; [|apply sublist_take].
  apply list_elem_of_filter in Hin. tauto.
Qed.

(** X7.  The participants of a teaser record are the sender names of the
    conversation's messages, each listed once. *)
Theorem teaser_participants_are_the_senders
    {Py : PythonRuntime} {Co : Collaborators}
    (user_profile : UserProfile) (stream_messages : QuerySet UserMessage)
    (w : World Block) (h : key) :
  let rows := stream_messages (store w) in
  ∃ teaser,
    teaser_data user_profile stream_messages (conversation_tables rows) h w
      = (Ok teaser, w)
    ∧ NoDup (participants teaser)
    ∧ len (participants teaser) = sender_count rows h
    ∧ ∀ name, name ∈ participants teaser
        ↔ ∃ user_message,
            user_message ∈ rows
            ∧ conversation_key user_message = h
            ∧ sender_full_name user_message = name.
Proof.
  intros rows. subst rows.
  exists (teaser_of user_profile (stream_messages (store w)) h).
  rewrite teaser_data_run. unfold teaser_of. simpl.
  split_and!; [done|apply NoDup_elements|done|].
  intros name. unfold participant_names, messages_of.
  rewrite elem_of_elements, elem_of_list_to_set, list_elem_of_fmap.
  split.
  - intros (user_message & -> & Hin).
    apply list_elem_of_filter in Hin as [Hkey Hin]. by exists user_message.
  - intros (user_message & Hin & Hkey & <-). exists user_message.
    split; [done|]. by apply list_elem_of_filter.
Qed.

(** ** More on the gatherers *)

(** X8.  [gather_new_users] misses nobody: the count it returns is the
    length of the list of names; the names are those of the qualifying
    users, in store order; every user of the store who is in the realm,
    joined strictly after the threshold and is not a bot is named, the
    given user included when that user qualifies; and the count is zero
    exactly when no user of the store qualifies. *)
Theorem gather_new_users_names_every_newcomer {Co : Collaborators}
    (user_profile : UserProfile) (threshold : Z) (w : World Block) :
  ∃ new_users_count user_names,
    gather_new_users user_profile threshold w
      = (Ok (new_users_count, user_names), w)
    ∧ new_users_count = len user_names
    ∧ user_names
        `sublist_of` (up_full_name <$> UserProfile_objects (store w))
    ∧ (∀ user, user ∈ UserProfile_objects (store w) →
         up_realm user = up_realm user_profile →
         threshold < up_date_joined user →
         up_is_bot user = false →
         up_full_name user ∈ user_names)
    ∧ (user_profile ∈ UserProfile_objects (store w) →
       threshold < up_date_joined user_profile →
       up_is_bot user_profile = false →
       up_full_name user_profile ∈ user_names)
    ∧ (new_users_count = 0
       ↔ ∀ user, user ∈ UserProfile_objects (store w) →
           ¬ (up_realm user = up_realm user_profile
              ∧ threshold < up_date_joined user
              ∧ up_is_bot user = false)).
Proof.
  pose proof (gather_new_users_run user_profile threshold w) as Hrun.
  cbv zeta in Hrun.
  assert (Hnew : ∀ user,
    user ∈ filter (is_new_user user_profile threshold)
             (UserProfile_objects (store w))
    ↔ user ∈ UserProfile_objects (store w)
      ∧ up_realm user = up_realm user_profile
      ∧ threshold < up_date_joined user
      ∧ up_is_bot user = false).
  { intros user. rewrite list_elem_of_filter. unfold is_new_user.
    split; intros; destruct_and?; split_and?; done || lia. }
  remember (filter (is_new_user user_profile threshold)
              (UserProfile_objects (store w))) as new_users eqn:Hfilter.
  eexists _, _. rewrite Hrun.
  assert (Hall : ∀ user, user ∈ UserProfile_objects (store w) →
    up_realm user = up_realm user_profile →
    threshold < up_date_joined user →
    up_is_bot user = false →
    up_full_name user ∈ up_full_name <$> new_users).
  { intros user Hin Hrealm Hdate Hbot.
    apply list_elem_of_fmap_2, Hnew. by split_and!. }
  split_and!; [done|done| |exact Hall|by intros ? ? ?; apply Hall|].
  - subst new_users. apply fmap_sublist, sublist_filter.
  - unfold len. rewrite length_fmap. split.
    + intros Hzero user Hin Hqualifies.
      assert (Hnil : new_users = []) by (apply length_zero_iff_nil; lia).
      assert (Huser : user ∈ new_users) by (apply Hnew; by split).
      rewrite Hnil in Huser. by apply elem_of_nil in Huser.
    + intros Hnone. destruct new_users as [|user rest]; [done|].
      assert (Huser : user ∈ user :: rest) by left.
      apply Hnew in Huser as [Hin Hqualifies].
      by destruct (Hnone user Hin).
Qed.

(** X9.  [gather_new_streams] returns as many HTML links as plain names,
    and that many is the count; the link at each place is the anchor
    built from the name at that place, with the encoded name in the
    address and the bare name as the text; the names are those of the
    qualifying streams, in store order, and every stream of the store in
    the realm created strictly after the threshold is among them. *)
Theorem gather_new_streams_links_match_names {Co : Collaborators}
    (user_profile : UserProfile) (threshold : Z) (w : World Block) :
  ∃ new_streams_count new_streams,
    gather_new_streams user_profile threshold w
      = (Ok (new_streams_count, new_streams), w)
    ∧ new_streams_count = len (plain new_streams)
    ∧ new_streams_count = len (html new_streams)
    ∧ html new_streams
      = (λ name, "<a href='"
                   +:+ ("https://zulip.com/#narrow/stream/"
                          +:+ hashchange_encode name)
                   +:+ "'>" +:+ name +:+ "</a>") <$> plain new_streams
    ∧ plain new_streams
        `sublist_of` (stream_name <$> Stream_objects (store w))
    ∧ ∀ stream, stream ∈ Stream_objects (store w) →
        stream_realm stream = up_realm user_profile →
        threshold < stream_date_created stream →
        stream_name stream ∈ plain new_streams.
Proof.
  eexists _, _. rewrite gather_new_streams_run. cbv zeta.
  split_and!; [done|..]; simpl.
  - unfold len. by rewrite length_fmap.
  - unfold len. by rewrite length_fmap.
  - rewrite <-list_fmap_compose. reflexivity.
  - apply fmap_sublist, sublist_filter.
  - intros stream Hin Hrealm Hdate. apply list_elem_of_fmap_2.
    apply list_elem_of_filter. split; [|done]. split; [done|lia].
Qed.

(** ** More on the orchestrator *)

Section Orchestrator.

Context {Py : PythonRuntime} {Co : Collaborators}.
Implicit Types (w : World Block) (user_profile : UserProfile).

Lemma insert_ascending_sorted {A} (f : A → Z) (x : A) (l : list A) :
  StronglySorted (λ a b, f a ≤ f b) l →
  StronglySorted (λ a b, f a ≤ f b)
    (insert_stable (λ y x, f y <? f x) x l).
Proof.
  induction 1 as [|y l Hl IH Hy]; simpl.
  - repeat constructor.
  - destruct (Z.ltb_spec (f y) (f x)) as [Hlt|Hge].
    + constructor; [done|].
      rewrite insert_stable_perm. constructor; [lia|done].
    + constructor; [by constructor|].
      constructor; [lia|].
      eapply Forall_impl; [exact Hy|]. simpl. intros; lia.
Qed.

Lemma sort_ascending_sorted {A} (f : A → Z) (l : list A) :
  StronglySorted (λ a b, f a ≤ f b) (stable_sort (λ y x, f y <? f x) l).
Proof.
  induction l as [|x l IH]; simpl; [constructor|].
  by apply insert_ascending_sorted.
Qed.

Lemma elem_of_messages_after (st : Store) user_profile (cutoff : Z)
    (user_message : UserMessage) :
  user_message ∈ messages_after st user_profile cutoff
  ↔ user_message ∈ UserMessage_objects st
    ∧ up_id (um_user_profile user_message) = up_id user_profile
    ∧ cutoff < message_pub_date (um_message user_message).
Proof.
  unfold messages_after.
  rewrite stable_sort_elem_of, list_elem_of_filter.
  split; intros; destruct_and?; split_and?; done || lia.
Qed.

Lemma messages_after_sorted (st : Store) user_profile (cutoff : Z) :
  StronglySorted
    (λ a b, message_pub_date (um_message a)
              ≤ message_pub_date (um_message b))
    (messages_after st user_profile cutoff).
Proof.
  apply (sort_ascending_sorted
           (λ user_message, message_pub_date (um_message user_message))).
Qed.

Lemma elem_of_direct_messages (st : Store) user_profile (cutoff : Z)
    (user_message : UserMessage) :
  user_message ∈ direct_messages st user_profile cutoff
  ↔ user_message ∈ UserMessage_objects st
    ∧ up_id (um_user_profile user_message) = up_id user_profile
    ∧ cutoff < message_pub_date (um_message user_message)
    ∧ recipient_type (message_recipient (um_message user_message))
      ≠ Recipient_STREAM.
Proof.
  unfold direct_messages.
  rewrite list_elem_of_filter, elem_of_messages_after. tauto.
Qed.

Lemma elem_of_visible_stream_messages (st : Store) user_profile
    (cutoff : Z) (user_message : UserMessage) :
  user_message ∈ visible_stream_messages st user_profile cutoff
  ↔ user_message ∈ UserMessage_objects st
    ∧ up_id (um_user_profile user_message) = up_id user_profile
    ∧ cutoff < message_pub_date (um_message user_message)
    ∧ recipient_type (message_recipient (um_message user_message))
      = Recipient_STREAM
    ∧ ∃ sub, sub ∈ Subscription_objects st
        ∧ up_id (sub_user_profile sub) = up_id user_profile
        ∧ sub_active sub = true
        ∧ sub_in_home_view sub = true
        ∧ recipient_id (sub_recipient sub)
          = recipient_id (message_recipient (um_message user_message)).
Proof.
  unfold visible_stream_messages, home_view_recipient_ids.
  rewrite list_elem_of_filter, elem_of_messages_after.
  rewrite <-list_fmap_compose, list_elem_of_fmap.
  setoid_rewrite list_elem_of_filter. simpl.
  split.
  - intros [[Htype (sub & Hid & (Hown & Ha & Hv) & Hsub)] Hafter].
    split_and!; try tauto. exists sub. by split_and!.
  - intros (Hin & Huser & Hdate & Htype & sub & Hsub & Hown & Ha & Hv & Hid).
    split_and!; try done. by exists sub.
Qed.

(** With the user resolved and the cutoff converted, the call is the
    rendering and sending of the assembled payload. *)
Lemma handle_digest_email_resolved (user_profile_id : Z) (cutoff : PyValue)
    w user_profile (seconds instant : Z) :
  resolves_to (store w) user_profile_id user_profile →
  py_int cutoff = Ok seconds →
  utcfromtimestamp seconds = Ok instant →
  handle_digest_email user_profile_id cutoff w
  = render_and_send w user_profile
      (digest_payload (store w) user_profile instant).
Proof.
  intros Huser Hint Hutc. rewrite handle_digest_email_run.
  unfold resolves_to in Huser. by rewrite Huser, Hint, Hutc.
Qed.

Lemma render_and_send_first_call w user_profile
    (payload : TemplatePayload Block) :
  ∃ later_calls,
    calls (render_and_send w user_profile payload).2
    = calls w ++ render_to_string_call text_template payload :: later_calls.
Proof.
  unfold render_and_send.
  destruct (render_to_string text_template _) as [text_content|e];
    [|by exists []].
  destruct (render_to_string html_template _) as [html_content|e];
    [|eexists [_]; simpl; by rewrite <-app_assoc].
  destruct (gate _).
  - eexists [_; _]. simpl. by rewrite <-!app_assoc.
  - eexists [_]. simpl. by rewrite <-app_assoc.
Qed.

End Orchestrator.

(** X10.  The unread previews of the digest are built from the user's
    earliest direct messages in the window, four at most: each is a row
    of the store for this user, published strictly after the cutoff and
    not sent to a stream; they come in order of publication; and every
    such row of the store is either previewed or published no earlier
    than every previewed one. *)
Theorem unread_previews_are_the_earliest_direct_messages
    {Py : PythonRuntime} {Co : Collaborators}
    (user_profile_id : Z) (cutoff : PyValue) (w : World Block)
    (user_profile : UserProfile) (seconds instant : Z) :
  resolves_to (store w) user_profile_id user_profile →
  py_int cutoff = Ok seconds →
  utcfromtimestamp seconds = Ok instant →
  let is_direct user_message :=
    user_message ∈ UserMessage_objects (store w)
    ∧ up_id (um_user_profile user_message) = up_id user_profile
    ∧ instant < message_pub_date (um_message user_message)
    ∧ recipient_type (message_recipient (um_message user_message))
      ≠ Recipient_STREAM in
  ∃ payload later_calls previews,
    calls (handle_digest_email user_profile_id cutoff w).2
      = calls w ++ render_to_string_call text_template payload :: later_calls
    ∧ tp_unread_pms payload
      = build_message_list user_profile (um_message <$> previews)
    ∧ length previews
      = (4 `min` length (direct_messages (store w) user_profile instant))%nat
    ∧ Forall is_direct previews
    ∧ StronglySorted
        (λ a b, message_pub_date (um_message a)
                  ≤ message_pub_date (um_message b)) previews
    ∧ ∀ user_message, is_direct user_message →
        user_message ∈ previews
        ∨ Forall (λ preview,
             message_pub_date (um_message preview)
               ≤ message_pub_date (um_message user_message)) previews.
Proof.
  intros Huser Hint Hutc is_direct.
  rewrite (handle_digest_email_resolved _ _ _ _ _ _ Huser Hint Hutc).
  destruct (render_and_send_first_call w user_profile
              (digest_payload (store w) user_profile instant))
    as [later_calls Hcalls].
  set (pms := direct_messages (store w) user_profile instant).
  assert (Hsorted : StronglySorted
    (λ a b, message_pub_date (um_message a)
              ≤ message_pub_date (um_message b)) pms).
  { eapply StronglySorted_sublist; [apply sublist_filter|].
    apply messages_after_sorted. }
  exists (digest_payload (store w) user_profile instant), later_calls,
    (take 4 pms).
  split_and!; [done|done|apply length_take| | |].
  - apply Forall_forall. intros user_message Hin.
    eapply elem_of_sublist in Hin; [|apply sublist_take].
    by apply elem_of_direct_messages in Hin.
  - eapply StronglySorted_sublist; [apply sublist_take|done].
  - intros user_message Hdirect.
    apply elem_of_direct_messages in Hdirect. fold pms in Hdirect.
    rewrite <-(take_drop 4 pms), elem_of_app in Hdirect.
    destruct Hdirect as [Hshown|Hlater]; [by left|right].
    rewrite <-(take_drop 4 pms) in Hsorted.
    apply Forall_forall. intros preview Hpreview.
    by apply (StronglySorted_app_1_elem_of _ _ _ _ _ Hsorted).
Qed.

Lemma unread_previews_are_the_earliest_direct_messages_witness :
  resolves_to Sample.realm 1 Sample.alice
  ∧ py_int (Py := Sample.runtime) (PyStr "0") = Ok 0
  ∧ utcfromtimestamp (PythonRuntime := Sample.runtime) 0 = Ok 0
  ∧ ∃ payload later_calls previews,
      calls (handle_digest_email (Py := Sample.runtime)
               (Co := Sample.collaborators) 1 (PyStr "0") Sample.world).2
        = calls Sample.world
            ++ render_to_string_call text_template payload :: later_calls
      ∧ tp_unread_pms payload
        = build_message_list (Collaborators := Sample.collaborators)
            Sample.alice (um_message <$> previews)
      ∧ length previews
        = (4 `min` length (direct_messages (Co := Sample.collaborators)
                             Sample.realm Sample.alice 0))%nat.
Proof.
  split_and!; [reflexivity..|].
  destruct (unread_previews_are_the_earliest_direct_messages
              (Py := Sample.runtime) (Co := Sample.collaborators)
              1 (PyStr "0") Sample.world Sample.alice 0 0
              eq_refl eq_refl eq_refl)
    as (payload & later_calls & previews & Hcalls & Hpms & Hlen & _).
  exists payload, later_calls, previews.
  split; [exact Hcalls|]. split; [exact Hpms|exact Hlen].
Defined.

(** X11.  A template that fails to render ends the call with its
    exception and nothing is sent: when the text template fails, one
    render call was made; when the HTML template fails after the text
    template rendered, two were made. *)
Theorem template_failures_propagate
    {Py : PythonRuntime} {Co : Collaborators}
    (user_profile_id : Z) (cutoff : PyValue) (w : World Block)
    (user_profile : UserProfile) (seconds instant : Z) :
  resolves_to (store w) user_profile_id user_profile →
  py_int cutoff = Ok seconds →
  utcfromtimestamp seconds = Ok instant →
  let payload := digest_payload (store w) user_profile instant in
  let outcome := handle_digest_email user_profile_id cutoff w in
  (∀ e, render_to_string text_template payload = Raise e →
     outcome.1 = Raise e
     ∧ store outcome.2 = store w
     ∧ calls outcome.2
       = calls w ++ [render_to_string_call text_template payload])
  ∧ (∀ text_content e,
       render_to_string text_template payload = Ok text_content →
       render_to_string html_template payload = Raise e →
       outcome.1 = Raise e
       ∧ store outcome.2 = store w
       ∧ calls outcome.2
         = calls w ++ [render_to_string_call text_template payload;
                       render_to_string_call html_template payload]).
Proof.
  intros Huser Hint Hutc payload outcome. subst outcome.
  rewrite (handle_digest_email_resolved _ _ _ _ _ _ Huser Hint Hutc).
  fold payload. unfold render_and_send. split.
  - intros e Htext. by rewrite Htext.
  - intros text_content e Htext Hhtml. rewrite Htext, Hhtml. simpl.
    by rewrite <-app_assoc.
Qed.

Lemma template_failures_propagate_witness :
  (handle_digest_email (Py := Sample.runtime) (Co := Sample.broken_text)
     1 (PyStr "0") Sample.world).1
  = Raise (CollaboratorError "TemplateSyntaxError")
  ∧ (handle_digest_email (Py := Sample.runtime) (Co := Sample.broken_html)
       1 (PyStr "0") Sample.world).1
    = Raise (CollaboratorError "TemplateSyntaxError")
  ∧ length (calls (handle_digest_email (Py := Sample.runtime)
                     (Co := Sample.broken_html)
                     1 (PyStr "0") Sample.world).2) = 2%nat.
Proof.
  split_and!.
  - apply (proj1 (template_failures_propagate
             (Py := Sample.runtime) (Co := Sample.broken_text)
             1 (PyStr "0") Sample.world Sample.alice 0 0
             eq_refl eq_refl eq_refl)
           (CollaboratorError "TemplateSyntaxError") eq_refl).
  - apply (proj2 (template_failures_propagate
             (Py := Sample.runtime) (Co := Sample.broken_html)
             1 (PyStr "0") Sample.world Sample.alice 0 0
             eq_refl eq_refl eq_refl)
           text_template (CollaboratorError "TemplateSyntaxError")
           eq_refl eq_refl).
  - destruct (proj2 (template_failures_propagate
             (Py := Sample.runtime) (Co := Sample.broken_html)
             1 (PyStr "0") Sample.world Sample.alice 0 0
             eq_refl eq_refl eq_refl)
           text_template (CollaboratorError "TemplateSyntaxError")
           eq_refl eq_refl) as (_ & _ & Hcalls).
    rewrite Hcalls. reflexivity.
Defined.

(** X12.  When [int(cutoff)] succeeds and [utcfromtimestamp] rejects the
    number, its exception comes out of the call and the world is what
    it was: nothing was queried for the digest, rendered or sent. *)
Theorem timestamp_failure_propagates
    {Py : PythonRuntime} {Co : Collaborators}
    (user_profile_id : Z) (cutoff : PyValue) (w : World Block)
    (user_profile : UserProfile) (seconds : Z) (e : Exn) :
  resolves_to (store w) user_profile_id user_profile →
  py_int cutoff = Ok seconds →
  utcfromtimestamp seconds = Raise e →
  handle_digest_email user_profile_id cutoff w = (Raise e, w).
Proof.
  intros Huser Hint Hutc. rewrite handle_digest_email_run.
  unfold resolves_to in Huser. by rewrite Huser, Hint, Hutc.
Qed.

Lemma timestamp_failure_propagates_witness :
  resolves_to Sample.realm 1 Sample.alice
  ∧ py_int (Py := Sample.runtime) (PyStr "999999999999999")
    = Ok 999999999999999
  ∧ utcfromtimestamp (PythonRuntime := Sample.runtime) 999999999999999
    = Raise ValueError
  ∧ handle_digest_email (Py := Sample.runtime) (Co := Sample.collaborators)
      1 (PyStr "999999999999999") Sample.world
    = (Raise ValueError, Sample.world).
Proof.
  split_and!; [reflexivity..|].
  apply (timestamp_failure_propagates
           (Py := Sample.runtime) (Co := Sample.collaborators)
           1 (PyStr "999999999999999") Sample.world Sample.alice
           999999999999999 ValueError); reflexivity.
Defined.

(** X13.  Whatever the input, one call of [handle_digest_email] makes
    no collaborator call at all, or renders the text template, or
    renders the text and then the HTML template on the same payload, or
    does both and then sends one email; so at most one email is sent,
    never before both templates were rendered, and a call that ends
    without an exception has rendered both. *)
Theorem at_most_one_email_after_both_renders
    {Py : PythonRuntime} {Co : Collaborators}
    (user_profile_id : Z) (cutoff : PyValue) (w : World Block) :
  let outcome := handle_digest_email user_profile_id cutoff w in
  ∃ new_calls,
    calls outcome.2 = calls w ++ new_calls
    ∧ ((new_calls = [] ∧ ∃ e, outcome.1 = Raise e)
       ∨ ∃ payload,
           (new_calls = [render_to_string_call text_template payload]
            ∧ ∃ e, outcome.1 = Raise e)
           ∨ (new_calls = [render_to_string_call text_template payload;
                           render_to_string_call html_template payload])
           ∨ (∃ email,
                new_calls = [render_to_string_call text_template payload;
                             render_to_string_call html_template payload;
                             send_future_email_call email]
                ∧ outcome.1 = Ok ()))
    ∧ (outcome.1 = Ok () → (2 ≤ length new_calls)%nat).
Proof.
  intros outcome. subst outcome. rewrite handle_digest_email_run.
  assert (Hnone : ∀ e, ∃ new_calls : list (Call Block),
    calls w = calls w ++ new_calls
    ∧ ((new_calls = [] ∧ ∃ e', Raise (A:=unit) e = Raise e')
       ∨ ∃ payload,
           (new_calls = [render_to_string_call text_template payload]
            ∧ ∃ e', Raise (A:=unit) e = Raise e')
           ∨ (new_calls = [render_to_string_call text_template payload;
                           render_to_string_call html_template payload])
           ∨ (∃ email,
                new_calls = [render_to_string_call text_template payload;
                             render_to_string_call html_template payload;
                             send_future_email_call email]
                ∧ Raise e = Ok ()))
    ∧ (Raise e = Ok () → (2 ≤ length new_calls)%nat)).
  { intros e. exists []. rewrite app_nil_r.
    split_and!; [done|left; split; [done|by eexists]|done]. }
  destruct (filter _ (UserProfile_objects (store w)))
    as [|user_profile [|? ?]]; simpl; [apply Hnone| |apply Hnone].
  destruct (py_int cutoff) as [seconds|e]; simpl; [|apply Hnone].
  destruct (utcfromtimestamp seconds) as [instant|e]; simpl;
    [|apply Hnone].
  unfold render_and_send.
  set (payload := digest_payload (store w) user_profile instant).
  destruct (render_to_string text_template payload) as [text_content|e].
  2: { eexists [_]. simpl. split_and!; [done| |done].
       right. exists payload. left. split; [done|by eexists]. }
  destruct (render_to_string html_template payload) as [html_content|e].
  2: { eexists [_; _]. simpl. rewrite <-app_assoc.
       split_and!; [done| |done]. right. exists payload. right. by left. }
  destruct (gate payload); simpl.
  - eexists [_; _; _]. rewrite <-!app_assoc.
    split_and!; [done| |simpl; lia].
    right. exists payload. right. right. by eexists.
  - eexists [_; _]. rewrite <-!app_assoc.
    split_and!; [done| |simpl; lia].
    right. exists payload. right. by left.
Qed.

(** X14.  Traffic gets the digest sent.  When the user resolves, the
    cutoff converts and both templates render, a visible stream message
    in the window is enough for the email to be sent, and so is a direct
    message in the window whose preview the formatter does not render
    empty. *)
Theorem traffic_gets_the_digest_sent
    {Py : PythonRuntime} {Co : Collaborators}
    (user_profile_id : Z) (cutoff : PyValue) (w : World Block)
    (user_profile : UserProfile) (seconds instant : Z)
    (text_content html_content : string) :
  resolves_to (store w) user_profile_id user_profile →
  py_int cutoff = Ok seconds →
  utcfromtimestamp seconds = Ok instant →
  let payload := digest_payload (store w) user_profile instant in
  render_to_string text_template payload = Ok text_content →
  render_to_string html_template payload = Ok html_content →
  visible_stream_messages (store w) user_profile instant ≠ []
  ∨ build_message_list user_profile
      (um_message <$> take 4 (direct_messages (store w) user_profile instant))
    ≠ [] →
  handle_digest_email user_profile_id cutoff w
  = (Ok (),
     {| store := store w;
        calls := calls w
          ++ [render_to_string_call text_template payload;
              render_to_string_call html_template payload;
              send_future_email_call
                (digest_email user_profile html_content text_content)] |}).
Proof.
  intros Huser Hint Hutc payload Htext Hhtml Htraffic.
  rewrite (handle_digest_email_resolved _ _ _ _ _ _ Huser Hint Hutc).
  fold payload. unfold render_and_send. rewrite Htext, Hhtml.
  assert (Hgate : gate payload = true).
  { subst payload. unfold gate, digest_payload, enough_traffic. simpl.
    destruct Htraffic as [Hstream|Hpms].
    - unfold hot_conversation_payloads.
      pose proof (hot_conversations_nonempty _ Hstream) as Hhot.
      destruct (hot_conversations _) as [|h rest]; [done|].
      simpl. by rewrite orb_true_r.
    - by destruct (build_message_list _ _). }
  rewrite Hgate. unfold logged. simpl. by rewrite <-!app_assoc.
Qed.

Lemma traffic_gets_the_digest_sent_witness :
  visible_stream_messages (Co := Sample.collaborators)
    Sample.realm Sample.alice 0 ≠ []
  ∧ ∃ payload,
      handle_digest_email (Py := Sample.runtime) (Co := Sample.collaborators)
        1 (PyStr "0") Sample.world
      = (Ok (),
         {| store := Sample.realm;
            calls :=
              [render_to_string_call text_template payload;
               render_to_string_call html_template payload;
               send_future_email_call
                 (digest_email Sample.alice html_template text_template)] |}).
Proof.
  assert (Hvisible : visible_stream_messages (Co := Sample.collaborators)
                       Sample.realm Sample.alice 0 ≠ [])
    by (vm_compute; discriminate).
  split; [exact Hvisible|].
  eexists.
  exact (traffic_gets_the_digest_sent
           (Py := Sample.runtime) (Co := Sample.collaborators)
           1 (PyStr "0") Sample.world Sample.alice 0 0
           text_template html_template
           eq_refl eq_refl eq_refl eq_refl eq_refl (or_introl Hvisible)).
Defined.

Lemma len_filter_nonzero {A} (P : A → Prop) `{∀ x, Decision (P x)}
    (l : list A) :
  len (filter P l) ≠ 0 ↔ ∃ x, x ∈ l ∧ P x.
Proof.
  split.
  - intros Hne. destruct (filter P l) as [|x rest] eqn:Hfilter; [done|].
    assert (Hx : x ∈ filter P l) by (rewrite Hfilter; left).
    apply list_elem_of_filter in Hx as [HP Hin]. by exists x.
  - intros (x & Hin & HP).
    assert (Hx : x ∈ filter P l) by by apply list_elem_of_filter.
    destruct (filter P l); [by apply elem_of_nil in Hx|].
    unfold len. simpl. lia.
Qed.

(** X15.  With nothing unread, growth decides.  When the user has no
    direct message and no visible stream message in the window (and the
    formatter renders no preview from no message), the digest is sent
    exactly when the store holds both a stream of the realm created
    strictly after the cutoff and a user of the realm, not a bot, who
    joined strictly after it. *)
Theorem quiet_inbox_needs_new_streams_and_new_users
    {Py : PythonRuntime} {Co : Collaborators}
    (user_profile_id : Z) (cutoff : PyValue) (w : World Block)
    (user_profile : UserProfile) (seconds instant : Z)
    (text_content html_content : string) :
  resolves_to (store w) user_profile_id user_profile →
  py_int cutoff = Ok seconds →
  utcfromtimestamp seconds = Ok instant →
  let payload := digest_payload (store w) user_profile instant in
  render_to_string text_template payload = Ok text_content →
  render_to_string html_template payload = Ok html_content →
  direct_messages (store w) user_profile instant = [] →
  visible_stream_messages (store w) user_profile instant = [] →
  build_message_list user_profile [] = [] →
  let outcome := handle_digest_email user_profile_id cutoff w in
  let new_calls := drop (length (calls w)) (calls outcome.2) in
  (∃ email, send_future_email_call email ∈ new_calls)
  ↔ (∃ stream, stream ∈ Stream_objects (store w)
       ∧ stream_realm stream = up_realm user_profile
       ∧ instant < stream_date_created stream)
    ∧ (∃ user, user ∈ UserProfile_objects (store w)
         ∧ up_realm user = up_realm user_profile
         ∧ instant < up_date_joined user
         ∧ up_is_bot user = false).
Proof.
  intros Huser Hint Hutc payload Htext Hhtml Hpms Hstream Hblank
    outcome new_calls.
  subst new_calls outcome.
  rewrite (handle_digest_email_resolved _ _ _ _ _ _ Huser Hint Hutc).
  fold payload. unfold render_and_send. rewrite Htext, Hhtml.
  set (new_streams := filter (is_new_stream user_profile instant)
                        (Stream_objects (store w))).
  set (new_users := filter (is_new_user user_profile instant)
                      (UserProfile_objects (store w))).
  assert (Hgate : gate payload
                  = negb (len new_streams =? 0) && negb (len new_users =? 0)).
  { subst payload. unfold gate, digest_payload, enough_traffic. simpl.
    rewrite Hpms, Hstream. simpl. rewrite Hblank.
    unfold hot_conversation_payloads. rewrite hot_conversations_nil. simpl.
    fold new_streams new_users. unfold len. rewrite length_fmap.
    by destruct (_ && _). }
  assert (Hstreams : len new_streams ≠ 0
    ↔ ∃ stream, stream ∈ Stream_objects (store w)
        ∧ stream_realm stream = up_realm user_profile
        ∧ instant < stream_date_created stream).
  { subst new_streams. rewrite len_filter_nonzero. unfold is_new_stream.
    split; intros (stream & ? & ? & ?); exists stream;
      split_and!; done || lia. }
  assert (Husers : len new_users ≠ 0
    ↔ ∃ user, user ∈ UserProfile_objects (store w)
        ∧ up_realm user = up_realm user_profile
        ∧ instant < up_date_joined user
        ∧ up_is_bot user = false).
  { subst new_users. rewrite len_filter_nonzero. unfold is_new_user.
    split; intros (user & ? & ? & ? & ?); exists user;
      split_and!; done || lia. }
  rewrite <-Hstreams, <-Husers, Hgate.
  destruct (Z.eqb_spec (len new_streams) 0) as [Hs|Hs],
    (Z.eqb_spec (len new_users) 0) as [Hu|Hu]; simpl;
    rewrite <-?app_assoc, drop_app_length; simpl.
  4: { split; [done|]. intros _.
       exists (digest_email user_profile html_content text_content).
       do 2 right. left. }
  all: split; [|by intros [? ?]].
  all: intros [email Hsent].
  all: rewrite !elem_of_cons, elem_of_nil in Hsent.
  all: by destruct Hsent as [?|[?|[]]].
Qed.

Lemma quiet_inbox_needs_new_streams_and_new_users_witness :
  direct_messages (Co := Sample.collaborators)
    Sample.growing_realm Sample.alice 0 = []
  ∧ visible_stream_messages (Co := Sample.collaborators)
      Sample.growing_realm Sample.alice 0 = []
  ∧ Sample.carol ∈ UserProfile_objects Sample.growing_realm
  ∧ ∃ email,
      send_future_email_call email
      ∈ drop (length (calls Sample.growing_world))
          (calls (handle_digest_email (Py := Sample.runtime)
                    (Co := Sample.collaborators)
                    1 (PyStr "0") Sample.growing_world).2).
Proof.
  split_and!; [reflexivity|reflexivity| |].
  - simpl. do 2 right. left.
  - apply (quiet_inbox_needs_new_streams_and_new_users
             (Py := Sample.runtime) (Co := Sample.collaborators)
             1 (PyStr "0") Sample.growing_world Sample.alice 0 0
             text_template html_template
             eq_refl eq_refl eq_refl eq_refl eq_refl
             eq_refl eq_refl eq_refl).
    split.
    + eexists. split; [left|]. split; [reflexivity|]. simpl. lia.
    + exists Sample.carol. split_and!.
      * simpl. do 2 right. left.
      * reflexivity.
      * simpl. lia.
      * reflexivity.
Defined.

(** X16.  The hot conversation of a digest comes from the user's home
    view.  The payload handed to the templates carries no hot
    conversation exactly when the store has no message of this user,
    published strictly after the cutoff, sent to a stream for which the
    user has an active subscription shown in the home view; otherwise it
    carries the one record of the conversation of such a message. *)
Theorem hot_conversation_comes_from_home_view_traffic
    {Py : PythonRuntime} {Co : Collaborators}
    (user_profile_id : Z) (cutoff : PyValue) (w : World Block)
    (user_profile : UserProfile) (seconds instant : Z) :
  resolves_to (store w) user_profile_id user_profile →
  py_int cutoff = Ok seconds →
  utcfromtimestamp seconds = Ok instant →
  let is_visible user_message :=
    user_message ∈ UserMessage_objects (store w)
    ∧ up_id (um_user_profile user_message) = up_id user_profile
    ∧ instant < message_pub_date (um_message user_message)
    ∧ recipient_type (message_recipient (um_message user_message))
      = Recipient_STREAM
    ∧ ∃ sub, sub ∈ Subscription_objects (store w)
        ∧ up_id (sub_user_profile sub) = up_id user_profile
        ∧ sub_active sub = true
        ∧ sub_in_home_view sub = true
        ∧ recipient_id (sub_recipient sub)
          = recipient_id (message_recipient (um_message user_message)) in
  ∃ payload later_calls,
    calls (handle_digest_email user_profile_id cutoff w).2
      = calls w ++ render_to_string_call text_template payload :: later_calls
    ∧ ((tp_hot_conversations payload = None
        ∧ ∀ user_message, ¬ is_visible user_message)
       ∨ ∃ user_message,
           is_visible user_message
           ∧ tp_hot_conversations payload
             = Some [teaser_of user_profile
                       (visible_stream_messages (store w) user_profile
                          instant)
                       (conversation_key user_message)]).
Proof.
  intros Huser Hint Hutc is_visible.
  rewrite (handle_digest_email_resolved _ _ _ _ _ _ Huser Hint Hutc).
  destruct (render_and_send_first_call w user_profile
              (digest_payload (store w) user_profile instant))
    as [later_calls Hcalls].
  exists (digest_payload (store w) user_profile instant), later_calls.
  split; [done|]. simpl. unfold hot_conversation_payloads.
  set (rows := visible_stream_messages (store w) user_profile instant).
  assert (Hvisible : ∀ user_message,
    user_message ∈ rows ↔ is_visible user_message)
    by apply elem_of_visible_stream_messages.
  destruct (hot_conversations rows) as [|h rest] eqn:Hhot.
  - left. split; [done|]. intros user_message Hin.
    apply Hvisible in Hin.
    destruct rows as [|row rows']; [by apply elem_of_nil in Hin|].
    by apply (hot_conversations_nonempty (row :: rows')).
  - right.
    assert (Hh : h ∈ conversation_keys rows).
    { apply hot_conversations_subset. rewrite Hhot. left. }
    apply elem_of_conversation_keys, list_elem_of_fmap in Hh
      as (user_message & -> & Hin).
    exists user_message. split; [by apply Hvisible|done].
Qed.

Lemma hot_conversation_comes_from_home_view_traffic_witness :
  resolves_to Sample.realm 1 Sample.alice
  ∧ py_int (Py := Sample.runtime) (PyStr "0") = Ok 0
  ∧ utcfromtimestamp (PythonRuntime := Sample.runtime) 0 = Ok 0
  ∧ ∃ payload later_calls,
      calls (handle_digest_email (Py := Sample.runtime)
               (Co := Sample.collaborators) 1 (PyStr "0") Sample.world).2
        = calls Sample.world
            ++ render_to_string_call text_template payload :: later_calls.
Proof.
  split_and!; [reflexivity..|].
  destruct (hot_conversation_comes_from_home_view_traffic
              (Py := Sample.runtime) (Co := Sample.collaborators)
              1 (PyStr "0") Sample.world Sample.alice 0 0
              eq_refl eq_refl eq_refl)
    as (payload & later_calls & Hcalls & _).
  exists payload, later_calls. exact Hcalls.
Defined.

(** ** More on the two tables *)

Lemma size_list_to_set_le (l : list string) :
  (size (list_to_set l : gset string) ≤ length l)%nat.
Proof.
  induction l as [|x l IH].
  - simpl. apply Nat.le_0_l.
  - rewrite list_to_set_cons. simpl length.
    rewrite size_union_alt, size_singleton.
    assert (size (list_to_set l ∖ {[x]} : gset string)
            ≤ size (list_to_set l : gset string))%nat
      by (apply subseteq_size; set_solver).
    lia.
Qed.

(** X17.  The loop of lines 31-36 keeps the two dictionaries in step:
    both hold exactly the conversation keys of the messages seen; under
    each key the length is the number of messages of the conversation and
    the diversity is the set of its sender names; and a conversation
    never has more distinct senders than messages, nor fewer than one. *)
Theorem conversation_tables_agree (stream_messages : list UserMessage) :
  dom (conversation_length stream_messages)
    = dom (conversation_diversity stream_messages)
  ∧ (∀ k, k ∈ dom (conversation_length stream_messages)
       ↔ ∃ user_message, user_message ∈ stream_messages
                         ∧ conversation_key user_message = k)
  ∧ ∀ k, k ∈ dom (conversation_length stream_messages) →
      ∃ n names,
        conversation_length stream_messages !! k = Some n
        ∧ conversation_diversity stream_messages !! k = Some names
        ∧ n = message_count stream_messages k
        ∧ names = participant_names stream_messages k
        ∧ 1 ≤ Z.of_nat (size names) ≤ n.
Proof.
  assert (Hdom : ∀ k, k ∈ dom (conversation_length stream_messages)
    ↔ k ∈ conversation_key <$> stream_messages).
  { intros k. rewrite elem_of_dom.
    rewrite (proj1 (conversation_tables_lookup _ _)).
    case_decide; split; try done; by intros [? ?]. }
  split_and!.
  - apply set_eq. intros k. rewrite Hdom, elem_of_dom.
    rewrite (proj2 (conversation_tables_lookup _ _)).
    case_decide; split; try done; by intros [? ?].
  - intros k. rewrite Hdom, list_elem_of_fmap. naive_solver.
  - intros k Hk. apply Hdom in Hk.
    destruct (conversation_tables_lookup stream_messages k) as [Hl Hd].
    rewrite decide_True in Hl by done. rewrite decide_True in Hd by done.
    eexists _, _. split_and!; [done..| |].
    + apply list_elem_of_fmap in Hk as (user_message & -> & Hin).
      assert (Hname : sender_full_name user_message
                      ∈ participant_names stream_messages
                          (conversation_key user_message)).
      { unfold participant_names, messages_of.
        apply elem_of_list_to_set, list_elem_of_fmap_2.
        by apply list_elem_of_filter. }
      assert (size (participant_names stream_messages
                      (conversation_key user_message)) ≠ 0)%nat.
      { apply size_non_empty_iff. set_solver. }
      lia.
    + unfold participant_names, message_count, len.
      pose proof (size_list_to_set_le
        (sender_full_name <$> messages_of stream_messages k)) as Hle.
      rewrite length_fmap in Hle. lia.
Qed.
